(** * parker6k: the controller of the Parker 6K motor driver

    A shallow embedding of [parker6kApp/src/parker6kController.cpp] and the
    properties of its command path, deferred-move dispatch, poll cycle and
    axis table.

    Conventions of the model.
    - C [int] and [epicsInt32] values are [Z]; [epicsFloat64] is the kernel's
      binary64 [float], so [floor(value + 0.5)] is computed as the C++ code
      computes it.
    - The asyn parameter library is a key/value store indexed by the asyn
      address (the "list") and the parameter.  The one-argument forms
      [setIntegerParam(P, v)] and [getDoubleParam(P, &v)] of the C++ code
      address list 0.
    - [wire] is the log of the command strings this file's code hands to
      [pasynOctetSyncIO->writeRead], oldest first; [errlog] is the log of its
      [ASYN_TRACE_ERROR] messages.
    - [pAxes_] is the axis table; a NULL pointer is [None].
    - What lives outside the file ([pasynOctetSyncIO->writeRead], the axis
      class's [getAxisStatus] and [move], the base class's write handlers)
      is a field of [framework].  Those calls are taken by their effect on
      the parameter library; the exchanges they make on their own are not
      itemised on [wire]. *)

From Stdlib Require Import ZArith Floats Uint63.
From stdpp Require Import base gmap strings list pretty.

Set Warnings "-inexact-float".
#[local] Open Scope Z_scope.

(** ** Status codes and parameters *)

(** [asynStatus] of asynDriver.h. *)
Inductive asynStatus :=
  | asynSuccess | asynTimeout | asynOverflow | asynError
  | asynDisconnected | asynDisabled.

#[global] Instance asynStatus_eq_dec : EqDecision asynStatus.
Proof. solve_decision. Defined.

(** The C++ test [status == asynSuccess]. *)
Definition is_success (s : asynStatus) : bool := bool_decide (s = asynSuccess).

(** The parameter indices the controller uses.  [otherParam] stands for the
    remaining indices of the motor framework. *)
Inductive param :=
  | motorPosition_ | motorEncoderRatio_ | motorLowLimit_ | motorHighLimit_
  | motorDeferMoves_ | motorStatusCommsError_
  | P6K_C_GlobalStatus_ | P6K_C_CommsError_
  | otherParam (n : nat).

#[global] Instance param_eq_dec : EqDecision param.
Proof. solve_decision. Defined.

Definition param_code (p : param) : nat :=
  match p with
  | motorPosition_ => 0 | motorEncoderRatio_ => 1 | motorLowLimit_ => 2
  | motorHighLimit_ => 3 | motorDeferMoves_ => 4
  | motorStatusCommsError_ => 5 | P6K_C_GlobalStatus_ => 6
  | P6K_C_CommsError_ => 7 | otherParam n => (8 + n)%nat
  end.

Definition param_of_code (k : nat) : param :=
  match k with
  | 0%nat => motorPosition_ | 1%nat => motorEncoderRatio_
  | 2%nat => motorLowLimit_ | 3%nat => motorHighLimit_
  | 4%nat => motorDeferMoves_ | 5%nat => motorStatusCommsError_
  | 6%nat => P6K_C_GlobalStatus_ | 7%nat => P6K_C_CommsError_
  | S (S (S (S (S (S (S (S n))))))) => otherParam n
  end.

#[global] Instance param_countable : Countable param.
Proof. by apply (inj_countable' param_code param_of_code); intros []. Defined.

Definition P6K_OK_ : Z := 0.
Definition P6K_ERROR_ : Z := 1.
Definition P6K_ERROR_PRINT_TIME_ : Z := 1.

(** ** Floating point to [epicsInt32] *)

(** The integer [floor(x)] of the C library; [None] for NaN and infinities. *)
Definition floorZ (x : float) : option Z :=
  match Prim2SF x with
  | S754_zero _ => Some 0
  | S754_finite s m e =>
      let q := if 0 <=? e then Z.pos m * 2 ^ e else Z.pos m / 2 ^ (- e) in
      let exact := if 0 <=? e then true else Z.pos m mod 2 ^ (- e) =? 0 in
      Some (if s then (if exact then - q else - q - 1) else q)
  | S754_infinity _ => None
  | S754_nan => None
  end.

Definition INT32_MIN : Z := - 2 ^ 31.
Definition INT32_MAX : Z := 2 ^ 31 - 1.

Definition in_epicsInt32 (z : Z) : bool := (INT32_MIN <=? z) && (z <=? INT32_MAX).

(** [static_cast<epicsInt32>(floor(x))].  C++ leaves the conversion undefined
    when [floor(x)] is not finite or not an [epicsInt32]; the model returns
    [INT32_MIN] there, as the x86 conversion instruction does. *)
Definition epicsInt32_of_floor (x : float) : Z :=
  match floorZ x with
  | Some z => if in_epicsInt32 z then z else INT32_MIN
  | None => INT32_MIN
  end.

(** An [epicsInt32] promoted to [double]; exact. *)
Definition double_of_int (z : Z) : float :=
  if z <? 0 then PrimFloat.opp (PrimFloat.of_uint63 (Uint63.of_Z (- z)))
  else PrimFloat.of_uint63 (Uint63.of_Z z).

(** The rounding of [writeFloat64]: [floor(x + 0.5)] cast to [epicsInt32]. *)
Definition round_floor_half (x : float) : Z := epicsInt32_of_floor (x + 0.5)%float.

(** Round half away from zero, as the specification words the rounding:
    the nearest integer, a tie going to the integer of larger magnitude. *)
Definition round_half_away_from_zero (x : float) : Z :=
  if PrimFloat.ltb x 0%float
  then - epicsInt32_of_floor (PrimFloat.opp x + 0.5)%float
  else epicsInt32_of_floor (x + 0.5)%float.

(** ** State *)

(** The fields of [p6kAxis] the controller reads and writes.  The class is
    declared outside this file; [deferredRelative_] and [deferredPosition_]
    are the fields the deferred-move dispatch names. *)
Record p6kAxis := mkAxis {
  axisNo_ : Z;
  deferredMove_ : Z;
  deferredRelative_ : Z;
  deferredPosition_ : float;
}.

Definition clearDeferredMove (a : p6kAxis) : p6kAxis :=
  mkAxis (axisNo_ a) 0 (deferredRelative_ a) (deferredPosition_ a).

Record paramLibrary := mkParams {
  intParams : gmap (Z * param) Z;
  doubleParams : gmap (Z * param) float;
}.

Record p6kController := mkController {
  lowLevelPortUser_ : bool;          (* the pointer is not NULL *)
  numAxes_ : Z;
  pAxes_ : list (option p6kAxis);
  movesDeferred_ : Z;
  nowTimeSecs_ : Z;
  lastTimeSecs_ : Z;
  printNextError_ : bool;
  params : paramLibrary;
  wire : list string;
  errlog : list string;
}.

Definition with_params (f : paramLibrary → paramLibrary) (c : p6kController) : p6kController :=
  mkController (lowLevelPortUser_ c) (numAxes_ c) (pAxes_ c) (movesDeferred_ c)
    (nowTimeSecs_ c) (lastTimeSecs_ c) (printNextError_ c) (f (params c))
    (wire c) (errlog c).

Definition with_pAxes (f : list (option p6kAxis) → list (option p6kAxis))
    (c : p6kController) : p6kController :=
  mkController (lowLevelPortUser_ c) (numAxes_ c) (f (pAxes_ c)) (movesDeferred_ c)
    (nowTimeSecs_ c) (lastTimeSecs_ c) (printNextError_ c) (params c)
    (wire c) (errlog c).

Definition with_movesDeferred (v : Z) (c : p6kController) : p6kController :=
  mkController (lowLevelPortUser_ c) (numAxes_ c) (pAxes_ c) v
    (nowTimeSecs_ c) (lastTimeSecs_ c) (printNextError_ c) (params c)
    (wire c) (errlog c).

Definition with_nowTimeSecs (v : Z) (c : p6kController) : p6kController :=
  mkController (lowLevelPortUser_ c) (numAxes_ c) (pAxes_ c) (movesDeferred_ c)
    v (lastTimeSecs_ c) (printNextError_ c) (params c) (wire c) (errlog c).

Definition with_lastTimeSecs (v : Z) (c : p6kController) : p6kController :=
  mkController (lowLevelPortUser_ c) (numAxes_ c) (pAxes_ c) (movesDeferred_ c)
    (nowTimeSecs_ c) v (printNextError_ c) (params c) (wire c) (errlog c).

Definition with_wire (f : list string → list string) (c : p6kController) : p6kController :=
  mkController (lowLevelPortUser_ c) (numAxes_ c) (pAxes_ c) (movesDeferred_ c)
    (nowTimeSecs_ c) (lastTimeSecs_ c) (printNextError_ c) (params c)
    (f (wire c)) (errlog c).

Definition with_errlog (f : list string → list string) (c : p6kController) : p6kController :=
  mkController (lowLevelPortUser_ c) (numAxes_ c) (pAxes_ c) (movesDeferred_ c)
    (nowTimeSecs_ c) (lastTimeSecs_ c) (printNextError_ c) (params c)
    (wire c) (f (errlog c)).

(** ** The collaborators outside the file *)

Record framework := mkFramework {
  (** [pasynOctetSyncIO->writeRead]: the status of an exchange, given the
      commands sent before it and the command. *)
  writeRead : list string → string → asynStatus;
  (** [p6kAxis::getAxisStatus], by axis number. *)
  getAxisStatus : Z → paramLibrary → paramLibrary;
  (** [p6kAxis::move] when moves are not deferred. *)
  moveImmediate : Z → float → bool → paramLibrary → asynStatus * paramLibrary;
  (** [asynMotorController::writeFloat64], by address, reason and value. *)
  base_writeFloat64 : Z → param → float → paramLibrary → asynStatus * paramLibrary;
  (** [asynMotorController::writeInt32]. *)
  base_writeInt32 : Z → param → Z → paramLibrary → asynStatus * paramLibrary;
}.

(** ** A state monad for the member functions *)

Definition M (A : Type) : Type := p6kController → A * p6kController.

Definition ret {A} (a : A) : M A := λ c, (a, c).
Definition bind {A B} (m : M A) (k : A → M B) : M B :=
  λ c, let r := m c in k (fst r) (snd r).
Definition get : M p6kController := λ c, (c, c).
Definition modify (f : p6kController → p6kController) : M unit := λ c, (tt, f c).

Notation "x <- m ;; k" := (bind m (λ x, k))
  (at level 100, m at level 99, right associativity).
Notation "m ;;; k" := (bind m (λ _, k))
  (at level 100, right associativity).

(** The parameter library calls of asynPortDriver.  A write succeeds when
    the index exists with the type of the call; the model covers those
    calls, so the status is [asynSuccess]. *)
Definition setIntegerParam (list : Z) (p : param) (v : Z) : M asynStatus :=
  modify (with_params (λ l, mkParams (<[(list, p) := v]> (intParams l)) (doubleParams l)));;;
  ret asynSuccess.

Definition setDoubleParam (list : Z) (p : param) (v : float) : M asynStatus :=
  modify (with_params (λ l, mkParams (intParams l) (<[(list, p) := v]> (doubleParams l))));;;
  ret asynSuccess.

(** [getIntegerParam(P, &v)]: an undefined parameter leaves [v] as it was,
    which is [dflt]. *)
Definition getIntegerParam (list : Z) (p : param) (dflt : Z) : M Z :=
  c <- get;; ret (default dflt (intParams (params c) !! (list, p))).

Definition getDoubleParam (list : Z) (p : param) (dflt : float) : M float :=
  c <- get;; ret (default dflt (doubleParams (params c) !! (list, p))).

(** [asynPrint(..., ASYN_TRACE_ERROR, ...)]. *)
Definition asynPrintError (msg : string) : M unit :=
  modify (with_errlog (λ l, l ++ [msg])).

(** The controller-wide comms flag and an axis's comms-error flag. *)
Definition commsFlag (c : p6kController) : option Z :=
  intParams (params c) !! (0, P6K_C_CommsError_).

Definition axisCommsError (axisNo : Z) (c : p6kController) : option Z :=
  intParams (params c) !! (axisNo, motorStatusCommsError_).

Definition mirror (axisNo : Z) (p : param) (c : p6kController) : option float :=
  doubleParams (params c) !! (axisNo, p).

(** ** The member functions *)

Section Controller.

Context (E : framework).

(** [p6kController::getAxis(int axisNo)].  Inside the bounds test the table
    is read at [axisNo]; a table shorter than [numAxes_] would make that read
    out of bounds, which the model turns into [None]. *)
Definition getAxis (axisNo : Z) (c : p6kController) : option p6kAxis :=
  if (axisNo <? 0) || (axisNo >=? numAxes_ c) then None
  else default None (pAxes_ c !! Z.to_nat axisNo).

(** The call of [pasynOctetSyncIO->writeRead] itself. *)
Definition transport (command : string) : M asynStatus :=
  c <- get;;
  modify (with_wire (λ w, w ++ [command]));;;
  ret (writeRead E (wire c) command).

(** [p6kController::lowLevelWriteRead]. *)
Definition lowLevelWriteRead (command : string) : M asynStatus :=
  c <- get;;
  if negb (lowLevelPortUser_ c) then
    setIntegerParam 0 P6K_C_CommsError_ P6K_ERROR_;;;
    ret asynError
  else
    commsError <- getIntegerParam 0 P6K_C_CommsError_ 0;;
    if commsError =? 0 then
      status <- transport command;;
      (if negb (is_success status) then
         asynPrintError "p6kController::lowLevelWriteRead: Error from pasynOctetSyncIO->writeRead.";;;
         setIntegerParam 0 P6K_C_CommsError_ P6K_ERROR_
       else
         setIntegerParam 0 P6K_C_CommsError_ P6K_OK_);;;
      ret status
    else ret asynSuccess.

(** The guarded send that [writeFloat64] repeats:
    [if (command[0] != 0 && status) status = (lowLevelWriteRead(command, response) == asynSuccess) && status;] *)
Definition writeReadIf (command : string) (status : bool) : M bool :=
  if negb (bool_decide (command = "")) && status then
    st <- lowLevelWriteRead command;;
    ret (is_success st && status)
  else ret status.

Definition stopCommand (axisNo : Z) : string := "!" +:+ pretty axisNo +:+ "S".
Definition psetCommand (axisNo position : Z) : string :=
  pretty axisNo +:+ "PSET" +:+ pretty position.
Definition pesetCommand (axisNo encposition : Z) : string :=
  pretty axisNo +:+ "PESET" +:+ pretty encposition.

(** The encoder ratio [writeFloat64] reads: [getDoubleParam(motorEncoderRatio_, &encRatio)]
    with [encRatio] initialised to 1.0. *)
Definition readEncoderRatio : M float := getDoubleParam 0 motorEncoderRatio_ 1%float.

(** The [function == motorPosition_] branch of [writeFloat64]. *)
Definition setPositionBranch (pAxis : p6kAxis) (value : float) (status : bool) : M bool :=
  let position := round_floor_half value in
  status <- writeReadIf (stopCommand (axisNo_ pAxis)) status;;
  status <- writeReadIf (psetCommand (axisNo_ pAxis) position) status;;
  encRatio <- readEncoderRatio;;
  let encposition := round_floor_half (double_of_int position * encRatio)%float in
  status <- writeReadIf (pesetCommand (axisNo_ pAxis) encposition) status;;
  modify (with_params (getAxisStatus E (axisNo_ pAxis)));;;
  ret status.

(** The branches on [function]; the two limit branches are empty. *)
Definition writeFloat64Branch (pAxis : p6kAxis) (function : param) (value : float)
    (status : bool) : M bool :=
  match function with
  | motorPosition_ => setPositionBranch pAxis value status
  | motorLowLimit_ => ret status
  | motorHighLimit_ => ret status
  | _ => ret status
  end.

(** A call of a base-class handler. *)
Definition callBase (h : paramLibrary → asynStatus * paramLibrary) : M asynStatus :=
  λ c, (fst (h (params c)), with_params (λ l, snd (h l)) c).

(** The closing lines shared by [writeFloat64] and [writeInt32]. *)
Definition reportAxisStatus (pAxis : p6kAxis) (status : bool) : M asynStatus :=
  if negb status then
    setIntegerParam (axisNo_ pAxis) motorStatusCommsError_ P6K_ERROR_;;;
    ret asynError
  else
    setIntegerParam (axisNo_ pAxis) motorStatusCommsError_ P6K_OK_;;;
    ret asynSuccess.

(** [p6kController::writeFloat64]; [addr] is the axis number that
    [getAddress] reads from [pasynUser] and [function] is its reason. *)
Definition writeFloat64 (addr : Z) (function : param) (value : float) : M asynStatus :=
  c <- get;;
  match getAxis addr c with
  | None => ret asynError
  | Some pAxis =>
      st <- setDoubleParam (axisNo_ pAxis) function value;;
      let status := is_success st && true in
      status <- writeFloat64Branch pAxis function value status;;
      (* [command] is all zeros here *)
      status <- writeReadIf "" status;;
      bst <- callBase (base_writeFloat64 E addr function value);;
      reportAxisStatus pAxis (is_success bst && status)
  end.

(** The first loop of [processDeferredMoves]; the [sprintf] that would
    append a clause is commented out in the source, so the body leaves
    [command] as it is. *)
Definition buildDeferredCommand (c : p6kController) : string :=
  foldl (λ command axis,
           match getAxis axis c with
           | Some pAxis =>
               if bool_decide (deferredMove_ pAxis ≠ 0) then command else command
           | None => command
           end)
        "" (seqZ 0 (numAxes_ c)).

(** One iteration of the second loop. *)
Definition clearDeferred (c : p6kController) (axis : Z) : p6kController :=
  match getAxis axis c with
  | Some pAxis =>
      if bool_decide (deferredMove_ pAxis ≠ 0)
      then with_pAxes (λ t, <[Z.to_nat axis := Some (clearDeferredMove pAxis)]> t) c
      else c
  | None => c
  end.

(** [p6kController::processDeferredMoves]. *)
Definition processDeferredMoves : M asynStatus :=
  c <- get;;
  st <- lowLevelWriteRead (buildDeferredCommand c);;
  status <- (if negb (is_success st) then
               asynPrintError "p6kController::processDeferredMoves ERROR Sending Deferred Move Command.";;;
               setIntegerParam 0 P6K_C_CommsError_ P6K_ERROR_;;;
               ret asynError
             else
               setIntegerParam 0 P6K_C_CommsError_ P6K_OK_;;;
               ret asynSuccess);;
  modify (λ c, foldl clearDeferred c (seqZ 0 (numAxes_ c)));;;
  ret status.

(** [p6kController::writeInt32]. *)
Definition writeInt32 (addr : Z) (function : param) (value : Z) : M asynStatus :=
  c <- get;;
  match getAxis addr c with
  | None => ret asynError
  | Some pAxis =>
      st <- setIntegerParam (axisNo_ pAxis) function value;;
      let status := is_success st && true in
      status <- (if bool_decide (function = motorDeferMoves_) then
                   c <- get;;
                   status <- (if (value =? 0) && negb (movesDeferred_ c =? 0) then
                                st <- processDeferredMoves;;
                                ret (is_success st && status)
                              else ret status);;
                   modify (with_movesDeferred value);;;
                   ret status
                 else ret status);;
      bst <- callBase (base_writeInt32 E addr function value);;
      reportAxisStatus pAxis (is_success bst && status)
  end.

(** [p6kController::getGlobalStatus]; the query itself is commented out in
    the source, so [status] stays [asynSuccess]. *)
Definition getGlobalStatus : M asynStatus :=
  let status := asynSuccess in
  (if is_success status then setIntegerParam 0 P6K_C_CommsError_ P6K_OK_
   else setIntegerParam 0 P6K_C_CommsError_ P6K_ERROR_);;;
  ret status.

(** [p6kController::poll]; [now] is [nowTime_.secPastEpoch], a count of
    seconds that the [epicsFloat64] fields hold exactly.  [printErrors] is
    computed as in the source, which reads it nowhere. *)
Definition poll (now : Z) : M asynStatus :=
  c <- get;;
  if negb (lowLevelPortUser_ c) then ret asynError
  else
    modify (with_nowTimeSecs now);;;
    c <- get;;
    printErrors <- (if nowTimeSecs_ c - lastTimeSecs_ c <? P6K_ERROR_PRINT_TIME_
                    then ret false
                    else modify (with_lastTimeSecs (nowTimeSecs_ c));;; ret true);;
    let printErrors := if printNextError_ c then true else printErrors in
    st <- getGlobalStatus;;
    let status := is_success st && true in
    if negb status then
      asynPrintError "p6kController::poll: Error reading or setting params.";;;
      setIntegerParam 0 P6K_C_CommsError_ P6K_ERROR_;;;
      ret asynError
    else
      setIntegerParam 0 P6K_C_CommsError_ P6K_OK_;;;
      ret asynSuccess.

(** *** Construction *)

(** Modelled from the spec: the [p6kAxis] constructor is not in this file.
    A new axis carries its number and no deferred move ("deferredMove:
    present only while deferral is active and a move was requested on this
    axis"); the base-class constructor stores it in the table at its number.
    A number outside the table would be stored out of bounds; the model
    leaves the table as it is there. *)
Definition newAxis (axis : Z) : M unit :=
  c <- get;;
  if (0 <=? axis) && (axis <? numAxes_ c) then
    modify (with_pAxes (λ t, <[Z.to_nat axis := Some (mkAxis axis 0 0 0%float)]> t))
  else ret tt.

(** [p6kController::lowLevelPortConnect], from the statuses of [connect],
    [setInputEos] and [setOutputEos]; the result is the status and whether
    [lowLevelPortUser_] is left non-NULL.  [userOnFailure] says what a failed
    [connect] leaves in the pointer. *)
Definition lowLevelPortConnect (connectSt inputEosSt outputEosSt : asynStatus)
    (userOnFailure : bool) : asynStatus * bool :=
  if negb (is_success connectSt) then (connectSt, userOnFailure)
  else if negb (is_success inputEosSt) then (inputEosSt, false)
  else if negb (is_success outputEosSt) then (outputEosSt, false)
  else (asynSuccess, true).

(** The constructor [p6kController::p6kController]: the base class gets
    [numAxes+1] and allocates that many NULL table entries. *)
Definition p6kController_new (numAxes : Z) (port : asynStatus * bool) : p6kController :=
  let c0 := mkController false (numAxes + 1) (replicate (Z.to_nat (numAxes + 1)) None)
              0 0 0 false (mkParams ∅ ∅) [] [] in
  let c1 := snd (newAxis 0 c0) in
  let c2 := mkController (snd port) (numAxes_ c1) (pAxes_ c1) (movesDeferred_ c1)
              (nowTimeSecs_ c1) (lastTimeSecs_ c1) (printNextError_ c1) (params c1)
              (wire c1) (errlog c1) in
  let c3 := snd ((if negb (is_success (fst port))
                  then setIntegerParam 0 P6K_C_CommsError_ P6K_ERROR_
                  else setIntegerParam 0 P6K_C_CommsError_ P6K_OK_) c2) in
  snd (setIntegerParam 0 P6K_C_GlobalStatus_ 0 c3).

(** [p6kCreateAxis], once the controller has been found by name. *)
Definition p6kCreateAxis (axis : Z) : M asynStatus :=
  if axis =? 0 then ret asynError
  else newAxis axis;;; ret asynSuccess.

(** [p6kCreateAxes]: axes 1 to [numAxes]. *)
Definition p6kCreateAxes (numAxes : Z) : M asynStatus :=
  modify (λ c, foldl (λ c axis, snd (newAxis axis c)) c (seqZ 1 numAxes));;;
  ret asynSuccess.

(** Modelled from the spec: [p6kAxis::move] is not in this file.  "While
    Deferring: a per-axis move request only stores {targetPosition,
    relative} on that Axis and does not contact the Transport Gateway";
    a request on an unknown axis address fails and performs no exchange.
    Outside deferral the move is the collaborator's [moveImmediate]. *)
Definition requestMove (addr : Z) (target : float) (relative : bool) : M asynStatus :=
  c <- get;;
  match getAxis addr c with
  | None => ret asynError
  | Some pAxis =>
      if negb (movesDeferred_ c =? 0) then
        modify (with_pAxes (λ t, <[Z.to_nat addr :=
                  Some (mkAxis (axisNo_ pAxis) 1 (if relative then 1 else 0) target)]> t));;;
        ret asynSuccess
      else callBase (moveImmediate E (axisNo_ pAxis) target relative)
  end.

(** The states the operations reach from a constructed controller.  Axes
    are created inside the table only, where the stores are defined. *)
Inductive reachable : p6kController → Prop :=
  | reach_new numAxes port :
      0 <= numAxes → reachable (p6kController_new numAxes port)
  | reach_createAxis c axis :
      reachable c → 0 <= axis < numAxes_ c →
      reachable (snd (p6kCreateAxis axis c))
  | reach_createAxes c n :
      reachable c → n < numAxes_ c →
      reachable (snd (p6kCreateAxes n c))
  | reach_writeFloat64 c addr function value :
      reachable c → reachable (snd (writeFloat64 addr function value c))
  | reach_writeInt32 c addr function value :
      reachable c → reachable (snd (writeInt32 addr function value c))
  | reach_poll c now :
      reachable c → reachable (snd (poll now c))
  | reach_requestMove c addr target relative :
      reachable c → reachable (snd (requestMove addr target relative c)).

End Controller.

Arguments getAxis : simpl never.
Arguments lowLevelWriteRead : simpl never.
Arguments writeReadIf : simpl never.
Arguments readEncoderRatio : simpl never.
Arguments setPositionBranch : simpl never.
Arguments reportAxisStatus : simpl never.
Arguments processDeferredMoves : simpl never.
Arguments writeFloat64 : simpl never.
Arguments writeInt32 : simpl never.
Arguments getGlobalStatus : simpl never.
Arguments poll : simpl never.
Arguments clearDeferred : simpl never.
Arguments newAxis : simpl never.

(** ** Concrete collaborators and states for the examples *)

(** A transport on which every exchange succeeds, and one on which every
    exchange times out. *)
Definition linkUp : list string → string → asynStatus := λ _ _, asynSuccess.
Definition linkDown : list string → string → asynStatus := λ _ _, asynTimeout.

(** A transport that answers stop commands only. *)
Definition linkStopOnly : list string → string → asynStatus :=
  λ _ command, if bool_decide (command = "!3S") then asynSuccess else asynTimeout.

(** A framework whose other collaborators succeed and leave the parameter
    library alone. *)
Definition quietFramework (wr : list string → string → asynStatus) : framework :=
  mkFramework wr (λ _ l, l) (λ _ _ _ l, (asynSuccess, l))
    (λ _ _ _ l, (asynSuccess, l)) (λ _ _ _ l, (asynSuccess, l)).

(** The two outcomes of [lowLevelPortConnect] the examples use: all three
    calls succeed, or [setInputEos] fails and the pointer is reset to NULL. *)
Definition portConnected : asynStatus * bool :=
  lowLevelPortConnect asynSuccess asynSuccess asynSuccess true.
Definition portFailed : asynStatus * bool :=
  lowLevelPortConnect asynSuccess asynError asynSuccess true.

(** A controller built for eight axes on a connected port, axes 1 to 8
    created. *)
Definition eightAxes : p6kController :=
  snd (p6kCreateAxes 8 (p6kController_new 8 portConnected)).

(** A controller on which an exchange has just timed out: the port is
    attached and the comms flag reads [P6K_ERROR_]. *)
Definition afterTimeout : p6kController :=
  snd (writeFloat64 (quietFramework linkDown) 3 motorPosition_ 1%float eightAxes).

Definition ratioTwo : p6kController :=
  snd (setDoubleParam 0 motorEncoderRatio_ 2%float eightAxes).

(** Axis 3 of [eightAxes] with 7.0 in its position mirror. *)
Definition atSeven : p6kController :=
  snd (setDoubleParam 3 motorPosition_ 7%float eightAxes).

(** Deferral enabled on [eightAxes], then moves requested on axes 2, 5, 7. *)
Definition deferred257 : p6kController :=
  let E := quietFramework linkUp in
  let c := snd (writeInt32 E 0 motorDeferMoves_ 1 eightAxes) in
  let c := snd (requestMove E 2 10%float false c) in
  let c := snd (requestMove E 5 20%float true c) in
  snd (requestMove E 7 30%float false c).

(** Deferral enabled on [eightAxes], no move requested. *)
Definition deferringIdle : p6kController :=
  snd (writeInt32 (quietFramework linkUp) 0 motorDeferMoves_ 1 eightAxes).

(** A controller whose port setup failed at [setInputEos], so that
    [lowLevelPortUser_] is NULL, and whose comms parameter a client has
    written back to 0 through [writeInt32]. *)
Definition detachedCleared : p6kController :=
  snd (writeInt32 (quietFramework linkUp) 0 P6K_C_CommsError_ 0
         (p6kController_new 8 portFailed)).

(** A controller built for two axes, none created yet. *)
Definition twoAxesBare : p6kController := p6kController_new 2 portConnected.

(** ** Predicates of the statements *)

(** The fields an exchange, a parameter write or a collaborator never
    touches. *)
Definition shape (c : p6kController) : Z * list (option p6kAxis) * Z * bool :=
  (numAxes_ c, pAxes_ c, movesDeferred_ c, lowLevelPortUser_ c).

(** A collaborator keeps a mirror entry that holds [v]. *)
Definition keeps_entry (h : paramLibrary → paramLibrary) (k : Z * param) (v : float) : Prop :=
  ∀ l, doubleParams l !! k = Some v → doubleParams (h l) !! k = Some v.

(** The table entry at [i] holds no pending move. *)
Definition cleared_at (c : p6kController) (i : nat) : Prop :=
  ∀ ax, pAxes_ c !! i = Some (Some ax) → deferredMove_ ax = 0.

(** No axis of the controller has a pending move. *)
Definition none_pending (c : p6kController) : Prop :=
  ∀ a ax, getAxis a c = Some ax → deferredMove_ ax = 0.

(** The invariant of the data model: outside deferral no move is pending. *)
Definition deferral_invariant (c : p6kController) : Prop :=
  movesDeferred_ c = 0 → none_pending c.

(** The table has [numAxes_] entries. *)
Definition wf (c : p6kController) : Prop :=
  length (pAxes_ c) = Z.to_nat (numAxes_ c).

Definition pendingAxes (c : p6kController) : list Z :=
  filter (λ a, match getAxis a c with
               | Some ax => bool_decide (deferredMove_ ax ≠ 0)
               | None => false
               end = true) (seqZ 0 (numAxes_ c)).

(** ** Definitions for the further properties *)

(** What the second loop of [processDeferredMoves] makes of a table entry. *)
Definition clearEntry (e : option p6kAxis) : option p6kAxis :=
  clearDeferredMove <$> e.

(** The axis lines of [p6kController::report]: for [level > 0], one line
    ["  axis %d"] per index below [numAxes_] at which [getAxis] is not NULL.
    The header line and the base-class report are printed around them. *)
Definition reportAxisLine (pAxis : p6kAxis) : string :=
  "  axis " +:+ pretty (axisNo_ pAxis).

Definition reportAxisLines (level : Z) (c : p6kController) : list string :=
  if 0 <? level
  then omap (λ axis, reportAxisLine <$> getAxis axis c) (seqZ 0 (numAxes_ c))
  else [].

(** ** Proof support *)

Ltac unfold_M :=
  unfold setIntegerParam, setDoubleParam, getIntegerParam, getDoubleParam,
    asynPrintError, bind, ret, get, modify in *.

Lemma is_success_true s : is_success s = true ↔ s = asynSuccess.
Proof. unfold is_success. apply bool_decide_eq_true. Qed.

Lemma is_success_false s : is_success s = false ↔ s ≠ asynSuccess.
Proof. unfold is_success. apply bool_decide_eq_false. Qed.

Section ExchangeFacts.

Context (E : framework).

Lemma lowLevelWriteRead_detached command c :
  lowLevelPortUser_ c = false →
  fst (lowLevelWriteRead E command c) = asynError
  ∧ wire (snd (lowLevelWriteRead E command c)) = wire c
  ∧ commsFlag (snd (lowLevelWriteRead E command c)) = Some P6K_ERROR_.
Proof.
  intros Hp. unfold lowLevelWriteRead, commsFlag. unfold_M. simpl. rewrite Hp. simpl.
  split; [done|]. split; [done|]. apply lookup_insert_eq.
Qed.

Lemma lowLevelWriteRead_gated command c :
  lowLevelPortUser_ c = true →
  default 0 (commsFlag c) ≠ 0 →
  lowLevelWriteRead E command c = (asynSuccess, c).
Proof.
  intros Hp Hf. unfold lowLevelWriteRead, commsFlag in *. unfold_M. simpl. rewrite Hp. simpl.
  destruct (Z.eqb_spec (default 0 (intParams (params c) !! (0, P6K_C_CommsError_))) 0); done.
Qed.

Lemma lowLevelWriteRead_sent command c :
  lowLevelPortUser_ c = true →
  default 0 (commsFlag c) = 0 →
  fst (lowLevelWriteRead E command c) = writeRead E (wire c) command
  ∧ wire (snd (lowLevelWriteRead E command c)) = wire c ++ [command]
  ∧ commsFlag (snd (lowLevelWriteRead E command c)) =
      Some (if is_success (writeRead E (wire c) command) then P6K_OK_ else P6K_ERROR_).
Proof.
  intros Hp Hf. unfold lowLevelWriteRead, transport, commsFlag in *. unfold_M. simpl.
  rewrite Hp. simpl. rewrite Hf. simpl.
  destruct (is_success (writeRead E (wire c) command)); simpl;
    (split; [done|]; split; [done|]; apply lookup_insert_eq).
Qed.

(** A failed call leaves the flag at [P6K_ERROR_]. *)
Lemma lowLevelWriteRead_failure command c :
  fst (lowLevelWriteRead E command c) ≠ asynSuccess →
  commsFlag (snd (lowLevelWriteRead E command c)) = Some P6K_ERROR_.
Proof.
  intros Hfail. destruct (lowLevelPortUser_ c) eqn:Hp.
  - destruct (decide (default 0 (commsFlag c) = 0)) as [Hf|Hf].
    + destruct (lowLevelWriteRead_sent command c Hp Hf) as (Hst & _ & Hflag).
      rewrite Hflag. rewrite Hst in Hfail.
      apply is_success_false in Hfail. by rewrite Hfail.
    + rewrite (lowLevelWriteRead_gated command c Hp Hf) in Hfail. done.
  - by destruct (lowLevelWriteRead_detached command c Hp) as (_ & _ & ?).
Qed.

Lemma lowLevelWriteRead_shape command c :
  shape (snd (lowLevelWriteRead E command c)) = shape c.
Proof.
  unfold lowLevelWriteRead, transport, shape. unfold_M. simpl.
  repeat (case_match; simpl); reflexivity.
Qed.

Lemma lowLevelWriteRead_doubles command c :
  doubleParams (params (snd (lowLevelWriteRead E command c))) = doubleParams (params c).
Proof.
  unfold lowLevelWriteRead, transport. unfold_M. simpl.
  repeat (case_match; simpl); reflexivity.
Qed.


End ExchangeFacts.

(** ** The comms flag after an exchange (C6) *)

(** C6, as amended.  A call of [lowLevelWriteRead] that returns a failure
    leaves the controller-wide comms flag at [P6K_ERROR_].  A call made with
    the port attached and the flag not in error hands the command to the
    transport, returns the transport's status and sets the flag to [P6K_OK_]
    when that status is success.  A call made with the port attached while
    the flag is in error contacts nothing and leaves the controller, the flag
    included, as it was; a call without a port contacts nothing either. *)
Theorem lowLevelWriteRead_comms_flag (E : framework) (command : string) (c : p6kController) :
  let r := lowLevelWriteRead E command c in
  (fst r ≠ asynSuccess → commsFlag (snd r) = Some P6K_ERROR_)
  ∧ (lowLevelPortUser_ c = true → default 0 (commsFlag c) = 0 →
       wire (snd r) = wire c ++ [command]
       ∧ fst r = writeRead E (wire c) command
       ∧ (fst r = asynSuccess → commsFlag (snd r) = Some P6K_OK_))
  ∧ (lowLevelPortUser_ c = true → default 0 (commsFlag c) ≠ 0 → snd r = c)
  ∧ (lowLevelPortUser_ c = false → wire (snd r) = wire c).
Proof.
  intros r. subst r. split; [apply lowLevelWriteRead_failure|].
  split; [|split].
  - intros Hp Hf. destruct (lowLevelWriteRead_sent E command c Hp Hf) as (Hst & Hw & Hflag).
    split; [done|]. split; [done|].
    intros Hok. rewrite Hflag. rewrite Hst in Hok. apply is_success_true in Hok.
    by rewrite Hok.
  - intros Hp Hf. by rewrite (lowLevelWriteRead_gated E command c Hp Hf).
  - intros Hp. by destruct (lowLevelWriteRead_detached E command c Hp) as (_ & ? & _).
Qed.

(** C6 as the specification states it fails: on [afterTimeout] the next call
    returns [asynSuccess] while the flag still reads [P6K_ERROR_]. *)
Lemma lowLevelWriteRead_success_flag_in_error :
  ¬ (∀ (E : framework) (command : string) (c : p6kController),
       let r := lowLevelWriteRead E command c in
       (fst r = asynSuccess → commsFlag (snd r) = Some P6K_OK_)
       ∧ (fst r ≠ asynSuccess → commsFlag (snd r) = Some P6K_ERROR_)).
Proof.
  intros H.
  destruct (H (quietFramework linkUp) "!3S" afterTimeout) as [Hok _].
  vm_compute in Hok. specialize (Hok eq_refl). discriminate Hok.
Qed.

Example exchange_on_a_healthy_link :
  lowLevelWriteRead (quietFramework linkUp) "!3S" eightAxes
    = (asynSuccess, with_wire (λ _, ["!3S"]) eightAxes)
  ∧ commsFlag eightAxes = Some P6K_OK_.
Proof. vm_compute. done. Qed.

Example afterTimeout_gated :
  lowLevelPortUser_ afterTimeout = true
  ∧ commsFlag afterTimeout = Some P6K_ERROR_
  ∧ lowLevelWriteRead (quietFramework linkUp) "!3S" afterTimeout = (asynSuccess, afterTimeout).
Proof. vm_compute. done. Qed.

(** ** Facts about [writeFloat64] *)

Lemma append_nonempty (s : string) (a : Ascii.ascii) (t : string) :
  s +:+ String a t ≠ "".
Proof. destruct s; discriminate. Qed.

Lemma stopCommand_nonempty a : stopCommand a ≠ "".
Proof. unfold stopCommand. discriminate. Qed.

Lemma psetCommand_nonempty a p : psetCommand a p ≠ "".
Proof. unfold psetCommand. apply append_nonempty. Qed.

Lemma pesetCommand_nonempty a p : pesetCommand a p ≠ "".
Proof. unfold pesetCommand. apply append_nonempty. Qed.

Section WriteFacts.

Context (E : framework).

Lemma writeReadIf_false command c : writeReadIf E command false c = (false, c).
Proof. unfold writeReadIf. rewrite andb_false_r. done. Qed.

Lemma writeReadIf_empty status c : writeReadIf E "" status c = (status, c).
Proof. unfold writeReadIf. done. Qed.

Lemma writeReadIf_true command c :
  command ≠ "" →
  writeReadIf E command true c =
    (is_success (fst (lowLevelWriteRead E command c)), snd (lowLevelWriteRead E command c)).
Proof.
  intros Hne. unfold writeReadIf. rewrite bool_decide_eq_false_2 by done.
  unfold_M. simpl. by rewrite andb_true_r.
Qed.

Lemma reportAxisStatus_result pAxis status c :
  fst (reportAxisStatus pAxis status c) = (if status then asynSuccess else asynError)
  ∧ axisCommsError (axisNo_ pAxis) (snd (reportAxisStatus pAxis status c)) =
      Some (if status then P6K_OK_ else P6K_ERROR_)
  ∧ wire (snd (reportAxisStatus pAxis status c)) = wire c
  ∧ errlog (snd (reportAxisStatus pAxis status c)) = errlog c
  ∧ shape (snd (reportAxisStatus pAxis status c)) = shape c
  ∧ doubleParams (params (snd (reportAxisStatus pAxis status c))) = doubleParams (params c).
Proof.
  unfold reportAxisStatus, axisCommsError, shape. unfold_M.
  destruct status; simpl; rewrite lookup_insert_eq; done.
Qed.

Lemma writeFloat64_unfold addr function value c pAxis :
  getAxis addr c = Some pAxis →
  writeFloat64 E addr function value c =
    let c1 := snd (setDoubleParam (axisNo_ pAxis) function value c) in
    let b := writeFloat64Branch E pAxis function value true c1 in
    let h := callBase (base_writeFloat64 E addr function value) (snd b) in
    reportAxisStatus pAxis (is_success (fst h) && fst b) (snd h).
Proof.
  intros Hax. unfold writeFloat64. unfold bind at 1. simpl. rewrite Hax.
  reflexivity.
Qed.

Lemma writeFloat64_no_axis addr function value c :
  getAxis addr c = None → writeFloat64 E addr function value c = (asynError, c).
Proof. intros Hax. unfold writeFloat64. unfold bind at 1. simpl. by rewrite Hax. Qed.


(** The whole branch in terms of its three exchanges. *)
Lemma setPositionBranch_run pAxis value c :
  let a := axisNo_ pAxis in
  let position := round_floor_half value in
  let r1 := writeReadIf E (stopCommand a) true c in
  let r2 := writeReadIf E (psetCommand a position) (fst r1) (snd r1) in
  let encRatio := fst (readEncoderRatio (snd r2)) in
  let encposition := round_floor_half (double_of_int position * encRatio)%float in
  let r3 := writeReadIf E (pesetCommand a encposition) (fst r2) (snd r2) in
  setPositionBranch E pAxis value true c =
    (fst r3, with_params (getAxisStatus E a) (snd r3)).
Proof. reflexivity. Qed.


Lemma writeReadIf_shape command status c :
  shape (snd (writeReadIf E command status c)) = shape c.
Proof.
  unfold writeReadIf. case_match; [|done].
  unfold bind. simpl. apply lowLevelWriteRead_shape.
Qed.


Lemma writeFloat64Branch_shape pAxis function value c :
  shape (snd (writeFloat64Branch E pAxis function value true c)) = shape c.
Proof.
  destruct function; try done. unfold writeFloat64Branch.
  pose proof (setPositionBranch_run pAxis value c) as Hrun. cbv zeta in Hrun.
  rewrite Hrun. cbn [fst snd].
  change (shape (with_params ?f ?x)) with (shape x).
  by rewrite !writeReadIf_shape.
Qed.


End WriteFacts.

Section SetPosition.

Context (E : framework).

Lemma lowLevelWriteRead_port command c :
  lowLevelPortUser_ (snd (lowLevelWriteRead E command c)) = lowLevelPortUser_ c.
Proof.
  pose proof (lowLevelWriteRead_shape E command c) as H. unfold shape in H.
  by simplify_eq.
Qed.

(** A guarded send on an attached port with the flag clear. *)
Lemma writeReadIf_sent command c :
  command ≠ "" →
  lowLevelPortUser_ c = true →
  default 0 (commsFlag c) = 0 →
  let r := writeReadIf E command true c in
  fst r = is_success (writeRead E (wire c) command)
  ∧ wire (snd r) = wire c ++ [command]
  ∧ commsFlag (snd r) =
      Some (if is_success (writeRead E (wire c) command) then P6K_OK_ else P6K_ERROR_)
  ∧ lowLevelPortUser_ (snd r) = true
  ∧ doubleParams (params (snd r)) = doubleParams (params c).
Proof.
  intros Hne Hp Hf r. subst r. rewrite (writeReadIf_true E _ _ Hne). cbn [fst snd].
  destruct (lowLevelWriteRead_sent E command c Hp Hf) as (-> & -> & ->).
  rewrite lowLevelWriteRead_port, lowLevelWriteRead_doubles. done.
Qed.




End SetPosition.

(** ** Set-position: the values sent (C3) *)




Example setPosition_minus_two_and_a_half :
  wire (snd (writeFloat64 (quietFramework linkUp) 3 motorPosition_ (-2.5)%float ratioTwo)) =
    ["!3S"; "3PSET-2"; "3PESET-4"]
  ∧ round_half_away_from_zero (-2.5)%float = -3.
Proof. vm_compute. done. Qed.

(** The sum [value + 0.5] is a binary64 sum: just below one half it is 1.0. *)
Example setPosition_below_half :
  wire (snd (writeFloat64 (quietFramework linkUp) 3 motorPosition_
               0x1.fffffffffffffp-2%float ratioTwo)) =
    ["!3S"; "3PSET1"; "3PESET2"].
Proof. vm_compute. done. Qed.

(** On non-negative inputs the two roundings are the same function. *)
Lemma round_floor_half_nonneg x :
  PrimFloat.ltb x 0%float = false → round_half_away_from_zero x = round_floor_half x.
Proof. intros H. unfold round_half_away_from_zero. by rewrite H. Qed.

Section Mirror.

Context (E : framework).



End Mirror.

(** ** The mirror is written first (C9) *)



Section SetPositionFailure.

Context (E : framework).


Lemma writeFloat64_result addr function value c pAxis :
  getAxis addr c = Some pAxis →
  let c1 := snd (setDoubleParam (axisNo_ pAxis) function value c) in
  let b := writeFloat64Branch E pAxis function value true c1 in
  let h := base_writeFloat64 E addr function value (params (snd b)) in
  let r := writeFloat64 E addr function value c in
  fst r = (if is_success (fst h) && fst b then asynSuccess else asynError)
  ∧ axisCommsError (axisNo_ pAxis) (snd r) =
      Some (if is_success (fst h) && fst b then P6K_OK_ else P6K_ERROR_)
  ∧ wire (snd r) = wire (snd b)
  ∧ errlog (snd r) = errlog (snd b)
  ∧ shape (snd r) = shape c.
Proof.
  intros Hax c1 b h r. subst r. rewrite (writeFloat64_unfold E _ _ _ _ _ Hax).
  cbv zeta. fold c1. fold b.
  destruct (reportAxisStatus_result pAxis
              (is_success (fst (callBase (base_writeFloat64 E addr function value) (snd b)))
               && fst b)
              (snd (callBase (base_writeFloat64 E addr function value) (snd b))))
    as (-> & -> & -> & -> & -> & _).
  unfold callBase. cbn [fst snd]. fold h.
  change (shape (with_params ?f ?x)) with (shape x).
  unfold b. rewrite writeFloat64Branch_shape. done.
Qed.


End SetPositionFailure.

(** ** Set-position: failures (C4) *)



Example setPosition_pset_failure :
  fst (writeFloat64 (quietFramework linkStopOnly) 3 motorPosition_ 100.4%float atSeven)
    = asynError
  ∧ wire (snd (writeFloat64 (quietFramework linkStopOnly) 3 motorPosition_ 100.4%float atSeven))
    = ["!3S"; "3PSET100"]
  ∧ axisCommsError 3
      (snd (writeFloat64 (quietFramework linkStopOnly) 3 motorPosition_ 100.4%float atSeven))
    = Some P6K_ERROR_.
Proof. vm_compute. done. Qed.


(** ** Soft-limit writes (C8) *)

(** C8.  A write of [motorLowLimit_] or [motorHighLimit_] on a valid axis
    stores the value in the axis's mirror entry, puts nothing on the wire
    and reports no error; the call returns [asynSuccess] exactly when the
    base-class handler does, and the entry holds the value at the end when
    that handler does not overwrite it. *)
Theorem limit_write_accepted (E : framework) (addr : Z) (function : param)
    (value : float) (c : p6kController) (pAxis : p6kAxis) :
  function = motorLowLimit_ ∨ function = motorHighLimit_ →
  getAxis addr c = Some pAxis →
  let c1 := snd (setDoubleParam (axisNo_ pAxis) function value c) in
  let r := writeFloat64 E addr function value c in
  mirror (axisNo_ pAxis) function c1 = Some value
  ∧ wire (snd r) = wire c
  ∧ errlog (snd r) = errlog c
  ∧ (fst r = asynSuccess ↔
       fst (base_writeFloat64 E addr function value (params c1)) = asynSuccess)
  ∧ (fst (base_writeFloat64 E addr function value (params c1)) = asynSuccess →
       axisCommsError (axisNo_ pAxis) (snd r) = Some P6K_OK_)
  ∧ (keeps_entry (λ l, snd (base_writeFloat64 E addr function value l))
       (axisNo_ pAxis, function) value →
       mirror (axisNo_ pAxis) function (snd r) = Some value).
Proof.
  intros Hfn Hax. cbv zeta.
  destruct (writeFloat64_result E addr function value c pAxis Hax)
    as (Hst & Hflag & Hwire & Herr & _).
  assert (Hbranch : ∀ x, writeFloat64Branch E pAxis function value true x = (true, x))
    by (by destruct Hfn as [-> | ->]).
  rewrite Hbranch in Hst, Hflag, Hwire, Herr. cbn [fst snd] in Hst, Hflag, Hwire, Herr.
  rewrite andb_true_r in Hst, Hflag.
  split. { unfold mirror. unfold_M. cbn. apply lookup_insert_eq. }
  split; [done|]. split; [done|]. split; [|split].
  - rewrite Hst.
    destruct (is_success (fst (base_writeFloat64 E addr function value
                (params (snd (setDoubleParam (axisNo_ pAxis) function value c)))))) eqn:Hb.
    + apply is_success_true in Hb. done.
    + apply is_success_false in Hb. split; [discriminate | done].
  - intros Hok. rewrite Hflag. apply is_success_true in Hok. by rewrite Hok.
  - intros Hk. rewrite (writeFloat64_unfold E _ _ _ _ _ Hax). cbv zeta.
    rewrite Hbranch. cbn [fst snd]. unfold mirror.
    match goal with |- context [reportAxisStatus pAxis ?s ?x] =>
      destruct (reportAxisStatus_result pAxis s x) as (_ & _ & _ & _ & _ & ->) end.
    unfold callBase. cbn [fst snd]. unfold with_params at 1. cbn [params].
    apply Hk. unfold_M. cbn. apply lookup_insert_eq.
Qed.

Lemma limit_write_accepted_example :
  getAxis 3 afterTimeout = Some (mkAxis 3 0 0 0%float)
  ∧ fst (writeFloat64 (quietFramework linkDown) 3 motorHighLimit_ 250%float afterTimeout)
    = asynSuccess
  ∧ wire (snd (writeFloat64 (quietFramework linkDown) 3 motorHighLimit_ 250%float afterTimeout))
    = wire afterTimeout
  ∧ mirror 3 motorHighLimit_
      (snd (writeFloat64 (quietFramework linkDown) 3 motorHighLimit_ 250%float afterTimeout))
    = Some 250%float.
Proof.
  assert (Hax : getAxis 3 afterTimeout = Some (mkAxis 3 0 0 0%float))
    by (vm_compute; reflexivity).
  split; [exact Hax|].
  pose proof (limit_write_accepted (quietFramework linkDown) 3 motorHighLimit_ 250%float
                afterTimeout (mkAxis 3 0 0 0%float) (or_intror eq_refl) Hax) as H.
  cbv zeta in H. destruct H as (_ & Hw & _ & Hst & _ & Hm).
  split; [by apply Hst|]. split; [exact Hw|].
  apply Hm. intros l Hl. exact Hl.
Defined.


(** ** Facts about the deferred-move dispatch *)

Lemma getAxis_in_range a c ax :
  getAxis a c = Some ax →
  0 <= a < numAxes_ c ∧ pAxes_ c !! Z.to_nat a = Some (Some ax).
Proof.
  unfold getAxis. intros H.
  destruct (Z.ltb_spec a 0); [done|]. destruct (Z.geb_spec a (numAxes_ c)); [done|].
  simpl in H. split; [lia|].
  destruct (pAxes_ c !! Z.to_nat a) as [[?|]|]; simpl in H; congruence.
Qed.

Lemma getAxis_lookup a c :
  0 <= a < numAxes_ c → getAxis a c = default None (pAxes_ c !! Z.to_nat a).
Proof.
  intros [H0 H1]. unfold getAxis.
  destruct (Z.ltb_spec a 0); [lia|]. destruct (Z.geb_spec a (numAxes_ c)); [lia|]. done.
Qed.

Lemma getAxis_shape a c c' : shape c' = shape c → getAxis a c' = getAxis a c.
Proof.
  unfold shape, getAxis. intros H.
  assert (numAxes_ c' = numAxes_ c ∧ pAxes_ c' = pAxes_ c) as [-> ->]
    by (split; congruence).
  done.
Qed.

Lemma buildDeferredCommand_empty c : buildDeferredCommand c = "".
Proof.
  unfold buildDeferredCommand. generalize (seqZ 0 (numAxes_ c)). intros l.
  induction l as [|axis l IH]; [done|]. simpl.
  destruct (getAxis axis c) as [pAxis|]; [|exact IH].
  destruct (bool_decide (deferredMove_ pAxis ≠ 0)); exact IH.
Qed.

Lemma clearDeferred_fields c axis :
  numAxes_ (clearDeferred c axis) = numAxes_ c
  ∧ movesDeferred_ (clearDeferred c axis) = movesDeferred_ c
  ∧ lowLevelPortUser_ (clearDeferred c axis) = lowLevelPortUser_ c
  ∧ params (clearDeferred c axis) = params c
  ∧ wire (clearDeferred c axis) = wire c
  ∧ errlog (clearDeferred c axis) = errlog c
  ∧ length (pAxes_ (clearDeferred c axis)) = length (pAxes_ c).
Proof.
  unfold clearDeferred. destruct (getAxis axis c) as [pAxis|]; [|done].
  destruct (bool_decide (deferredMove_ pAxis ≠ 0)); [|done].
  simpl. by rewrite length_insert.
Qed.

Lemma clearDeferred_keeps_cleared c axis i :
  cleared_at c i → cleared_at (clearDeferred c axis) i.
Proof.
  intros Hc. unfold clearDeferred. destruct (getAxis axis c) as [pAxis|]; [|done].
  destruct (bool_decide (deferredMove_ pAxis ≠ 0)); [|done].
  intros ax Hl. simpl in Hl.
  apply list_lookup_insert_Some in Hl as [(_ & Heq & _) | (_ & Hl)].
  - by simplify_eq.
  - by apply Hc.
Qed.

Lemma clearDeferred_clears c axis :
  0 <= axis < numAxes_ c → cleared_at (clearDeferred c axis) (Z.to_nat axis).
Proof.
  intros Hr. unfold clearDeferred. rewrite (getAxis_lookup _ _ Hr).
  destruct (pAxes_ c !! Z.to_nat axis) as [[pAxis|]|] eqn:Hl; simpl.
  - destruct (bool_decide_reflect (deferredMove_ pAxis ≠ 0)) as [Hd|Hd].
    + intros ax Hl'. simpl in Hl'.
      apply list_lookup_insert_Some in Hl' as [(_ & Heq & _) | (Hne & _)]; [|done].
      by simplify_eq.
    + intros ax Hl'. rewrite Hl in Hl'. simplify_eq. lia.
  - intros ax Hl'. rewrite Hl in Hl'. done.
  - intros ax Hl'. rewrite Hl in Hl'. done.
Qed.

Lemma clearLoop_fields l c :
  numAxes_ (foldl clearDeferred c l) = numAxes_ c
  ∧ movesDeferred_ (foldl clearDeferred c l) = movesDeferred_ c
  ∧ lowLevelPortUser_ (foldl clearDeferred c l) = lowLevelPortUser_ c
  ∧ params (foldl clearDeferred c l) = params c
  ∧ wire (foldl clearDeferred c l) = wire c
  ∧ errlog (foldl clearDeferred c l) = errlog c
  ∧ length (pAxes_ (foldl clearDeferred c l)) = length (pAxes_ c).
Proof.
  revert c. induction l as [|axis l IH]; intros c; [done|]. simpl.
  destruct (IH (clearDeferred c axis)) as (-> & -> & -> & -> & -> & -> & ->).
  apply clearDeferred_fields.
Qed.

Lemma clearLoop_keeps_cleared l c i :
  cleared_at c i → cleared_at (foldl clearDeferred c l) i.
Proof.
  revert c. induction l as [|axis l IH]; intros c Hc; [done|]. simpl.
  apply IH. by apply clearDeferred_keeps_cleared.
Qed.

Lemma clearLoop_clears l c axis :
  axis ∈ l → (∀ x, x ∈ l → 0 <= x < numAxes_ c) →
  cleared_at (foldl clearDeferred c l) (Z.to_nat axis).
Proof.
  revert c. induction l as [|x l IH]; intros c Hin Hr; [by apply elem_of_nil in Hin|].
  simpl. apply elem_of_cons in Hin as [-> | Hin].
  - apply clearLoop_keeps_cleared, clearDeferred_clears, Hr. left.
  - apply IH; [done|]. intros y Hy.
    destruct (clearDeferred_fields c x) as (-> & _). apply Hr. by right.
Qed.

(** After the second loop no axis has a pending move. *)
Lemma clearLoop_none_pending c :
  none_pending (foldl clearDeferred c (seqZ 0 (numAxes_ c))).
Proof.
  intros a ax Hax. apply getAxis_in_range in Hax as (Hr & Hl).
  destruct (clearLoop_fields (seqZ 0 (numAxes_ c)) c) as (Hn & _). rewrite Hn in Hr.
  apply (clearLoop_clears (seqZ 0 (numAxes_ c)) c a); [| |done].
  - apply elem_of_seqZ. lia.
  - intros x Hx. apply elem_of_seqZ in Hx. lia.
Qed.

Section Dispatch.

Context (E : framework).

Lemma processDeferredMoves_unfold c :
  processDeferredMoves E c =
    let r := lowLevelWriteRead E "" c in
    let c1 := if is_success (fst r)
              then snd (setIntegerParam 0 P6K_C_CommsError_ P6K_OK_ (snd r))
              else snd (setIntegerParam 0 P6K_C_CommsError_ P6K_ERROR_
                          (snd (asynPrintError
                             "p6kController::processDeferredMoves ERROR Sending Deferred Move Command."
                             (snd r)))) in
    (if is_success (fst r) then asynSuccess else asynError,
     foldl clearDeferred c1 (seqZ 0 (numAxes_ c1))).
Proof.
  unfold processDeferredMoves. unfold bind at 1. cbn [get fst snd].
  rewrite buildDeferredCommand_empty. cbv zeta.
  unfold bind at 1. cbv zeta.
  destruct (is_success (fst (lowLevelWriteRead E "" c))); reflexivity.
Qed.

Lemma processDeferredMoves_none_pending c :
  none_pending (snd (processDeferredMoves E c)).
Proof. rewrite processDeferredMoves_unfold. cbv zeta. cbn [snd]. apply clearLoop_none_pending. Qed.

Lemma processDeferredMoves_fields c :
  numAxes_ (snd (processDeferredMoves E c)) = numAxes_ c
  ∧ movesDeferred_ (snd (processDeferredMoves E c)) = movesDeferred_ c
  ∧ length (pAxes_ (snd (processDeferredMoves E c))) = length (pAxes_ c)
  ∧ wire (snd (processDeferredMoves E c)) = wire (snd (lowLevelWriteRead E "" c)).
Proof.
  rewrite processDeferredMoves_unfold. cbv zeta. cbn [snd].
  pose proof (lowLevelWriteRead_shape E "" c) as Hs. unfold shape in Hs.
  match goal with |- context [foldl clearDeferred ?x ?l] =>
    destruct (clearLoop_fields l x) as (-> & -> & _ & _ & -> & _ & ->) end.
  assert (numAxes_ (snd (lowLevelWriteRead E "" c)) = numAxes_ c
          ∧ movesDeferred_ (snd (lowLevelWriteRead E "" c)) = movesDeferred_ c
          ∧ pAxes_ (snd (lowLevelWriteRead E "" c)) = pAxes_ c) as (Hn & Hm & Hp)
    by (repeat split; congruence).
  destruct (is_success (fst (lowLevelWriteRead E "" c))); unfold_M; cbn;
    by rewrite Hn, Hm, Hp.
Qed.

End Dispatch.

(** ** Invariants of the reachable states *)

Lemma shape_fields c c' :
  shape c' = shape c →
  numAxes_ c' = numAxes_ c ∧ pAxes_ c' = pAxes_ c ∧ movesDeferred_ c' = movesDeferred_ c.
Proof. unfold shape. intros H. repeat split; congruence. Qed.

Lemma fields_keep_invariants c c' :
  numAxes_ c' = numAxes_ c → pAxes_ c' = pAxes_ c → movesDeferred_ c' = movesDeferred_ c →
  wf c ∧ deferral_invariant c → wf c' ∧ deferral_invariant c'.
Proof.
  intros Hn Hp Hm [Hwf Hinv]. split.
  - unfold wf. by rewrite Hn, Hp.
  - intros Hd a ax Hax. unfold getAxis in Hax. rewrite Hn, Hp in Hax.
    rewrite Hm in Hd. by apply (Hinv Hd a).
Qed.

Lemma shape_keeps_invariants c c' :
  shape c' = shape c → wf c ∧ deferral_invariant c → wf c' ∧ deferral_invariant c'.
Proof.
  intros Hs. destruct (shape_fields _ _ Hs) as (Hn & Hp & Hm).
  by apply fields_keep_invariants.
Qed.

Lemma newAxis_fields axis c :
  numAxes_ (snd (newAxis axis c)) = numAxes_ c
  ∧ movesDeferred_ (snd (newAxis axis c)) = movesDeferred_ c
  ∧ length (pAxes_ (snd (newAxis axis c))) = length (pAxes_ c).
Proof.
  unfold newAxis. unfold_M. cbn [fst snd].
  destruct ((0 <=? axis) && (axis <? numAxes_ c)); [|done].
  cbn. by rewrite length_insert.
Qed.

Lemma newAxis_getAxis axis c a ax :
  getAxis a (snd (newAxis axis c)) = Some ax →
  ax = mkAxis axis 0 0 0%float ∨ getAxis a c = Some ax.
Proof.
  intros Hax. apply getAxis_in_range in Hax as (Hr & Hl).
  destruct (newAxis_fields axis c) as (Hn & _). rewrite Hn in Hr.
  rewrite (getAxis_lookup _ _ Hr).
  unfold newAxis in Hl. unfold_M. cbn [fst snd] in Hl.
  destruct ((0 <=? axis) && (axis <? numAxes_ c)).
  - cbn in Hl. apply list_lookup_insert_Some in Hl as [(_ & Heq & _) | (_ & Hl)].
    + left. congruence.
    + right. by rewrite Hl.
  - right. cbn in Hl. by rewrite Hl.
Qed.

Lemma newAxis_keeps_invariants axis c :
  wf c ∧ deferral_invariant c →
  wf (snd (newAxis axis c)) ∧ deferral_invariant (snd (newAxis axis c)).
Proof.
  intros [Hwf Hinv]. destruct (newAxis_fields axis c) as (Hn & Hm & Hlen). split.
  - unfold wf. by rewrite Hlen, Hn.
  - intros Hd a ax Hax. rewrite Hm in Hd.
    apply newAxis_getAxis in Hax as [-> | Hax]; [done|]. by apply (Hinv Hd a).
Qed.

Lemma createLoop_keeps_invariants l c :
  wf c ∧ deferral_invariant c →
  wf (foldl (λ c axis, snd (newAxis axis c)) c l)
  ∧ deferral_invariant (foldl (λ c axis, snd (newAxis axis c)) c l).
Proof.
  revert c. induction l as [|axis l IH]; intros c H; [done|]. simpl.
  apply IH. by apply newAxis_keeps_invariants.
Qed.

Lemma p6kController_new_numAxes numAxes port :
  numAxes_ (p6kController_new numAxes port) = numAxes + 1.
Proof.
  unfold p6kController_new, newAxis. unfold_M. cbn.
  destruct (is_success (fst port)), (0 <? numAxes + 1); reflexivity.
Qed.

Lemma p6kController_new_invariants numAxes port :
  wf (p6kController_new numAxes port) ∧ deferral_invariant (p6kController_new numAxes port).
Proof.
  set (c0 := mkController false (numAxes + 1) (replicate (Z.to_nat (numAxes + 1)) None)
               0 0 0 false (mkParams ∅ ∅) [] []).
  assert (H0 : wf c0 ∧ deferral_invariant c0).
  { split; [unfold wf, c0; cbn; by rewrite length_replicate|].
    intros _ a ax Hax. apply getAxis_in_range in Hax as (_ & Hl).
    cbn in Hl. apply lookup_replicate in Hl as [? _]. done. }
  apply (newAxis_keeps_invariants 0) in H0.
  revert H0. apply fields_keep_invariants;
    unfold p6kController_new; fold c0; unfold_M;
    destruct (is_success (fst port)); reflexivity.
Qed.

Section Reachable.

Context (E : framework).

Lemma writeFloat64_shape addr function value c :
  shape (snd (writeFloat64 E addr function value c)) = shape c.
Proof.
  destruct (getAxis addr c) as [pAxis|] eqn:Hax.
  - by destruct (writeFloat64_result E addr function value c pAxis Hax) as (_ & _ & _ & _ & ?).
  - by rewrite writeFloat64_no_axis.
Qed.

Lemma poll_shape now c : shape (snd (poll now c)) = shape c.
Proof.
  unfold poll, getGlobalStatus. unfold_M. cbn.
  repeat (case_match; cbn); change (is_success asynSuccess) with true; reflexivity.
Qed.

Lemma writeInt32_unfold addr function value c pAxis :
  getAxis addr c = Some pAxis →
  writeInt32 E addr function value c =
    let c1 := snd (setIntegerParam (axisNo_ pAxis) function value c) in
    let d := if bool_decide (function = motorDeferMoves_)
                && (value =? 0) && negb (movesDeferred_ c1 =? 0)
             then (is_success (fst (processDeferredMoves E c1)),
                   snd (processDeferredMoves E c1))
             else (true, c1) in
    let c2 := if bool_decide (function = motorDeferMoves_)
              then with_movesDeferred value (snd d) else snd d in
    let h := callBase (base_writeInt32 E addr function value) c2 in
    reportAxisStatus pAxis (is_success (fst h) && fst d) (snd h).
Proof.
  intros Hax. unfold writeInt32. unfold_M. cbv zeta. cbn [fst snd]. rewrite Hax.
  cbn [fst snd].
  destruct (bool_decide (function = motorDeferMoves_)); cbn [andb fst snd]; [|reflexivity].
  destruct (value =? 0); cbn [andb fst snd]; [|reflexivity].
  match goal with |- context [negb (movesDeferred_ ?x =? 0)] =>
    destruct (negb (movesDeferred_ x =? 0)) end; cbn [fst snd];
    rewrite ?andb_true_r; reflexivity.
Qed.

Lemma writeInt32_no_axis addr function value c :
  getAxis addr c = None → writeInt32 E addr function value c = (asynError, c).
Proof. intros Hax. unfold writeInt32. unfold bind at 1. simpl. by rewrite Hax. Qed.

Lemma writeInt32_keeps_invariants addr function value c :
  wf c ∧ deferral_invariant c →
  wf (snd (writeInt32 E addr function value c))
  ∧ deferral_invariant (snd (writeInt32 E addr function value c)).
Proof.
  intros Hinv. destruct (getAxis addr c) as [pAxis|] eqn:Hax.
  2:{ by rewrite writeInt32_no_axis. }
  rewrite (writeInt32_unfold _ _ _ _ _ Hax). cbv zeta.
  set (c1 := snd (setIntegerParam (axisNo_ pAxis) function value c)).
  assert (H1 : wf c1 ∧ deferral_invariant c1)
    by (revert Hinv; by apply fields_keep_invariants).
  match goal with |- context [reportAxisStatus pAxis ?s ?x] =>
    destruct (reportAxisStatus_result pAxis s x) as (_ & _ & _ & _ & Hs & _) end.
  apply (shape_keeps_invariants _ _ Hs). clear Hs.
  unfold callBase. cbn [fst snd].
  match goal with |- wf (with_params ?f ?x) ∧ _ =>
    apply (fields_keep_invariants x (with_params f x)); [done..|] end.
  destruct (bool_decide_reflect (function = motorDeferMoves_)) as [Hf|Hf]; cbn [andb]; [|done].
  destruct (Z.eqb_spec value 0) as [Hv|Hv]; cbn [andb].
  - destruct (Z.eqb_spec (movesDeferred_ c1) 0) as [Hm|Hm]; cbn [negb fst snd].
    + (* deferral was not active: nothing is pending by the invariant *)
      destruct H1 as [Hwf1 Hinv1]. split; [done|].
      intros _ a ax Ha. by apply (Hinv1 Hm a).
    + (* release: the dispatch has cleared every axis *)
      destruct (processDeferredMoves_fields E c1) as (Hn & _ & Hlen & _).
      destruct H1 as [Hwf1 _]. split.
      * unfold wf in *.
        change (length (pAxes_ (snd (processDeferredMoves E c1)))
                = Z.to_nat (numAxes_ (snd (processDeferredMoves E c1)))).
        by rewrite Hlen, Hn.
      * intros _ a ax Ha. by apply (processDeferredMoves_none_pending E c1 a).
  - cbn [fst snd]. destruct H1 as [Hwf1 _]. split; [done|].
    intros Hd. cbn in Hd. done.
Qed.

Lemma requestMove_keeps_invariants addr target relative c :
  wf c ∧ deferral_invariant c →
  wf (snd (requestMove E addr target relative c))
  ∧ deferral_invariant (snd (requestMove E addr target relative c)).
Proof.
  intros Hinv. unfold requestMove. unfold_M. cbv zeta. cbn [fst snd].
  destruct (getAxis addr c) as [pAxis|] eqn:Hax; [|done].
  destruct (Z.eqb_spec (movesDeferred_ c) 0) as [Hm|Hm]; cbn [negb fst snd].
  - revert Hinv. by apply fields_keep_invariants.
  - destruct Hinv as [Hwf _]. split.
    + unfold wf in *. cbn. by rewrite length_insert.
    + intros Hd. cbn in Hd. done.
Qed.

(** Every reachable state has a table of [numAxes_] entries and satisfies
    the deferral invariant. *)
Lemma reachable_invariants c :
  reachable E c → wf c ∧ deferral_invariant c.
Proof.
  induction 1 as [numAxes port Hn | c axis _ IH _ | c n _ IH _ | c addr function value _ IH
                 | c addr function value _ IH | c now _ IH | c addr target relative _ IH].
  - apply p6kController_new_invariants.
  - unfold p6kCreateAxis. destruct (axis =? 0); [done|].
    unfold bind, ret. cbn [fst snd]. by apply newAxis_keeps_invariants.
  - unfold p6kCreateAxes. unfold_M. cbn [fst snd]. by apply createLoop_keeps_invariants.
  - revert IH. apply shape_keeps_invariants, writeFloat64_shape.
  - by apply writeInt32_keeps_invariants.
  - revert IH. apply shape_keeps_invariants, poll_shape.
  - by apply requestMove_keeps_invariants.
Qed.

End Reachable.

(** ** The deferral invariant and the drain (C5) *)


Example deferred257_drained_on_success :
  pendingAxes deferred257 = [2; 5; 7]
  ∧ fst (processDeferredMoves (quietFramework linkUp) deferred257) = asynSuccess
  ∧ pendingAxes (snd (processDeferredMoves (quietFramework linkUp) deferred257)) = [].
Proof. vm_compute. done. Qed.

Example deferred257_drained_on_failure :
  fst (processDeferredMoves (quietFramework linkDown) deferred257) = asynError
  ∧ pendingAxes (snd (processDeferredMoves (quietFramework linkDown) deferred257)) = [].
Proof. vm_compute. done. Qed.

(** ** The dispatch sends an empty command (C1, C2) *)

Section Release.

Context (E : framework).

Lemma writeInt32_release_wire addr c pAxis :
  getAxis addr c = Some pAxis →
  movesDeferred_ c ≠ 0 →
  wire (snd (writeInt32 E addr motorDeferMoves_ 0 c)) =
    wire (snd (lowLevelWriteRead E ""
                 (snd (setIntegerParam (axisNo_ pAxis) motorDeferMoves_ 0 c)))).
Proof.
  intros Hax Hm. rewrite (writeInt32_unfold E _ _ _ _ _ Hax). cbv zeta.
  match goal with |- context [reportAxisStatus pAxis ?s ?x] =>
    destruct (reportAxisStatus_result pAxis s x) as (_ & _ & -> & _) end.
  unfold callBase. cbn [fst snd]. change (wire (with_params ?f ?x)) with (wire x).
  set (c1 := snd (setIntegerParam (axisNo_ pAxis) motorDeferMoves_ 0 c)).
  assert (Hm1 : movesDeferred_ c1 = movesDeferred_ c) by done.
  rewrite bool_decide_eq_true_2 by done. rewrite Hm1.
  destruct (Z.eqb_spec (movesDeferred_ c) 0) as [?|_]; [done|].
  cbn [andb negb Z.eqb fst snd].
  change (wire (with_movesDeferred ?v ?x)) with (wire x).
  by destruct (processDeferredMoves_fields E c1) as (_ & _ & _ & ->).
Qed.

End Release.

(** C1.  What the code does on a release of defer mode: with the port
    attached and the comms flag clear, [writeInt32] of 0 to
    [motorDeferMoves_] during deferral hands one command to the transport,
    the empty string, whether or not an axis has a pending move. *)
Theorem release_sends_empty_command (E : framework) (addr : Z) (c : p6kController)
    (pAxis : p6kAxis) :
  getAxis addr c = Some pAxis →
  movesDeferred_ c ≠ 0 →
  lowLevelPortUser_ c = true →
  default 0 (commsFlag c) = 0 →
  wire (snd (writeInt32 E addr motorDeferMoves_ 0 c)) = wire c ++ [""].
Proof.
  intros Hax Hm Hp Hf. rewrite (writeInt32_release_wire E _ _ _ Hax Hm).
  set (c1 := snd (setIntegerParam (axisNo_ pAxis) motorDeferMoves_ 0 c)).
  assert (Hf1 : default 0 (commsFlag c1) = 0).
  { unfold commsFlag, c1. unfold_M. cbn. by rewrite lookup_insert_ne. }
  by destruct (lowLevelWriteRead_sent E "" c1 Hp Hf1) as (_ & -> & _).
Qed.

Lemma release_sends_empty_command_example :
  pendingAxes deferringIdle = []
  ∧ wire (snd (writeInt32 (quietFramework linkUp) 0 motorDeferMoves_ 0 deferringIdle)) = [""].
Proof.
  split; [vm_compute; reflexivity|].
  apply (release_sends_empty_command (quietFramework linkUp) 0 deferringIdle
           (mkAxis 0 0 0 0%float)).
  - vm_compute; reflexivity.
  - vm_compute; discriminate.
  - vm_compute; reflexivity.
  - vm_compute; reflexivity.
Defined.

(** C2.  What the code does at a release with moves pending: the first
    loop builds the empty string for every controller state, and on axes 2,
    5 and 7 the call succeeds, the one command on the wire is that empty
    string, which holds no clause, and the three moves are cleared. *)
Theorem deferred_dispatch_sends_no_clause :
  (∀ c, buildDeferredCommand c = "")
  ∧ pendingAxes deferred257 = [2; 5; 7]
  ∧ fst (writeInt32 (quietFramework linkUp) 0 motorDeferMoves_ 0 deferred257) = asynSuccess
  ∧ wire (snd (writeInt32 (quietFramework linkUp) 0 motorDeferMoves_ 0 deferred257)) = [""]
  ∧ pendingAxes (snd (writeInt32 (quietFramework linkUp) 0 motorDeferMoves_ 0 deferred257)) = [].
Proof. split; [apply buildDeferredCommand_empty|]. vm_compute. done. Qed.

(** ** The poll cycle (C7) *)

Lemma poll_detached now c :
  lowLevelPortUser_ c = false → poll now c = (asynError, c).
Proof. intros Hp. unfold poll. unfold_M. cbn. by rewrite Hp. Qed.

Lemma poll_attached now c :
  lowLevelPortUser_ c = true →
  fst (poll now c) = asynSuccess
  ∧ commsFlag (snd (poll now c)) = Some P6K_OK_
  ∧ errlog (snd (poll now c)) = errlog c
  ∧ wire (snd (poll now c)) = wire c.
Proof.
  intros Hp. unfold poll, getGlobalStatus, commsFlag. unfold_M.
  cbn. rewrite Hp. cbn.
  destruct (now - lastTimeSecs_ c <? P6K_ERROR_PRINT_TIME_); cbn;
    change (is_success asynSuccess) with true; cbn;
    rewrite lookup_insert_eq; done.
Qed.

(** C7, as amended.  A poll cycle fails only when no transport is attached,
    and it then returns at once: two consecutive failing cycles emit no error
    report and leave the controller, the health flag included, as it was.
    A cycle with the transport attached succeeds, emits no report and sets
    the flag to [P6K_OK_], whatever the time since the last report. *)
Theorem poll_failure_leaves_state (c : p6kController) (now1 now2 : Z) :
  fst (poll now1 c) ≠ asynSuccess →
  fst (poll now2 (snd (poll now1 c))) ≠ asynSuccess →
  lowLevelPortUser_ c = false
  ∧ snd (poll now1 c) = c
  ∧ snd (poll now2 (snd (poll now1 c))) = c
  ∧ errlog (snd (poll now2 (snd (poll now1 c)))) = errlog c
  ∧ commsFlag (snd (poll now2 (snd (poll now1 c)))) = commsFlag c
  ∧ (∀ now c', lowLevelPortUser_ c' = true →
       fst (poll now c') = asynSuccess
       ∧ commsFlag (snd (poll now c')) = Some P6K_OK_
       ∧ errlog (snd (poll now c')) = errlog c').
Proof.
  intros H1 _.
  assert (Hp : lowLevelPortUser_ c = false).
  { destruct (lowLevelPortUser_ c) eqn:Hp; [|done].
    by destruct (poll_attached now1 c Hp) as (? & _). }
  rewrite (poll_detached now1 c Hp). cbn [fst snd].
  rewrite (poll_detached now2 c Hp). cbn [fst snd].
  do 5 (split; [done|]).
  intros now c' Hp'. by destruct (poll_attached now c' Hp') as (? & ? & ? & _).
Qed.

Lemma poll_failure_leaves_state_example :
  fst (poll 100 detachedCleared) = asynError
  ∧ snd (poll 100 detachedCleared) = detachedCleared
  ∧ snd (poll 100 (snd (poll 100 detachedCleared))) = detachedCleared.
Proof.
  split; [vm_compute; reflexivity|].
  pose proof (poll_failure_leaves_state detachedCleared 100 100) as H.
  destruct H as (_ & H1 & H2 & _).
  - vm_compute; discriminate.
  - vm_compute; discriminate.
  - split; [exact H1 | exact H2].
Defined.

(** C7 as the specification states it fails: [detachedCleared] is reachable,
    two polls in the same second fail on it, and the flag reads [P6K_OK_]
    after each. *)
Lemma poll_failure_flag_not_updated :
  ¬ (∀ (E : framework) (c : p6kController) (now1 now2 : Z),
       reachable E c →
       now2 - now1 < P6K_ERROR_PRINT_TIME_ →
       fst (poll now1 c) ≠ asynSuccess →
       fst (poll now2 (snd (poll now1 c))) ≠ asynSuccess →
       (length (errlog (snd (poll now2 (snd (poll now1 c))))) ≤ length (errlog c) + 1)%nat
       ∧ commsFlag (snd (poll now1 c)) = Some P6K_ERROR_
       ∧ commsFlag (snd (poll now2 (snd (poll now1 c)))) = Some P6K_ERROR_).
Proof.
  intros H.
  destruct (H (quietFramework linkUp) detachedCleared 100 100) as (_ & Hflag & _).
  - apply reach_writeInt32, reach_new. done.
  - done.
  - vm_compute; discriminate.
  - vm_compute; discriminate.
  - vm_compute in Hflag. discriminate Hflag.
Qed.

(** ** The axis table (C10) *)

(** C10, as amended.  In every reachable state [getAxis] returns NULL for an
    [axisNo] below 0 or not below [numAxes_]; for an [axisNo] in range the
    read is inside the table and the result is the stored entry, which is
    NULL when no axis was created at that index.  A constructed controller
    has [numAxes_] equal to the requested count plus one. *)
Theorem getAxis_bounds (E : framework) (c : p6kController) (axisNo : Z) :
  reachable E c →
  (axisNo < 0 ∨ numAxes_ c <= axisNo → getAxis axisNo c = None)
  ∧ (0 <= axisNo < numAxes_ c →
       ∃ entry, pAxes_ c !! Z.to_nat axisNo = Some entry ∧ getAxis axisNo c = entry)
  ∧ (∀ numAxes port, numAxes_ (p6kController_new numAxes port) = numAxes + 1).
Proof.
  intros Hc. destruct (reachable_invariants E c Hc) as [Hwf _]. split; [|split].
  - intros Hout. unfold getAxis.
    destruct (Z.ltb_spec axisNo 0); [done|].
    destruct (Z.geb_spec axisNo (numAxes_ c)); [done|]. lia.
  - intros Hr. rewrite (getAxis_lookup _ _ Hr).
    destruct (pAxes_ c !! Z.to_nat axisNo) as [entry|] eqn:Hl.
    + by exists entry.
    + apply lookup_ge_None in Hl. unfold wf in Hwf. lia.
  - apply p6kController_new_numAxes.
Qed.

Lemma getAxis_bounds_example :
  numAxes_ twoAxesBare = 3
  ∧ getAxis 3 twoAxesBare = None
  ∧ getAxis (-1) twoAxesBare = None
  ∧ ∃ entry, pAxes_ twoAxesBare !! 1%nat = Some entry ∧ getAxis 1 twoAxesBare = entry.
Proof.
  assert (Hr : reachable (quietFramework linkUp) twoAxesBare) by (by apply reach_new).
  split; [vm_compute; reflexivity|].
  split; [apply (getAxis_bounds (quietFramework linkUp) twoAxesBare 3 Hr);
          right; vm_compute; discriminate|].
  split; [apply (getAxis_bounds (quietFramework linkUp) twoAxesBare (-1) Hr); left; lia|].
  apply (getAxis_bounds (quietFramework linkUp) twoAxesBare 1 Hr).
  split; [lia | vm_compute; reflexivity].
Defined.

(** C10 as the specification states it fails: on [twoAxesBare] index 1 is in
    range and [getAxis] returns NULL, no axis having been created there. *)
Lemma getAxis_null_in_range :
  ¬ (∀ (E : framework) (c : p6kController) (axisNo : Z),
       reachable E c →
       (getAxis axisNo c = None ↔ axisNo < 0 ∨ axisNo >= numAxes_ c)).
Proof.
  intros H.
  destruct (H (quietFramework linkUp) twoAxesBare 1) as [Hto _]; [by apply reach_new|].
  assert (Hnull : getAxis 1 twoAxesBare = None) by (vm_compute; reflexivity).
  destruct (Hto Hnull) as [Hlt | Hge]; [lia|].
  vm_compute in Hge. by apply Hge.
Qed.

(** * Further properties of the controller *)

(** ** [writeFloat64] and [writeInt32] on an address without an axis *)

(** X1.  A write to an address for which [getAxis] returns NULL returns
    [asynError] and leaves the controller as it was: nothing is stored,
    nothing is sent and no flag is written. *)
Theorem write_without_axis (E : framework) (addr : Z) (function : param)
    (fvalue : float) (ivalue : Z) (c : p6kController) :
  getAxis addr c = None →
  writeFloat64 E addr function fvalue c = (asynError, c)
  ∧ writeInt32 E addr function ivalue c = (asynError, c).
Proof.
  intros Hax. split.
  - by apply writeFloat64_no_axis.
  - by apply writeInt32_no_axis.
Qed.

Lemma write_without_axis_example :
  getAxis 9 eightAxes = None
  ∧ writeFloat64 (quietFramework linkUp) 9 motorPosition_ 5%float eightAxes
    = (asynError, eightAxes)
  ∧ writeInt32 (quietFramework linkUp) 9 motorDeferMoves_ 1 eightAxes
    = (asynError, eightAxes).
Proof.
  assert (Hax : getAxis 9 eightAxes = None) by (vm_compute; reflexivity).
  split; [exact Hax|].
  exact (write_without_axis (quietFramework linkUp) 9 motorPosition_ 5%float 1
           eightAxes Hax).
Defined.

(** ** What a set-position puts on the wire *)

Section SetPositionWire.

Context (E : framework).

Lemma writeReadIf_detached command c :
  lowLevelPortUser_ c = false → command ≠ "" →
  fst (writeReadIf E command true c) = false
  ∧ wire (snd (writeReadIf E command true c)) = wire c.
Proof.
  intros Hp Hne. rewrite (writeReadIf_true E _ _ Hne). cbn [fst snd].
  destruct (lowLevelWriteRead_detached E command c Hp) as (-> & -> & _). done.
Qed.

Lemma writeReadIf_gated command c :
  lowLevelPortUser_ c = true → default 0 (commsFlag c) ≠ 0 → command ≠ "" →
  writeReadIf E command true c = (true, c).
Proof.
  intros Hp Hf Hne. rewrite (writeReadIf_true E _ _ Hne).
  by rewrite (lowLevelWriteRead_gated E command c Hp Hf).
Qed.

(** The commands of the set-position branch, by the state of the link. *)
Lemma setPositionBranch_sent pAxis value c :
  let a := axisNo_ pAxis in
  let position := round_floor_half value in
  let encposition :=
    round_floor_half (double_of_int position * fst (readEncoderRatio c))%float in
  wire (snd (setPositionBranch E pAxis value true c)) =
    wire c ++
      (if negb (lowLevelPortUser_ c) || negb (default 0 (commsFlag c) =? 0) then []
       else if negb (is_success (writeRead E (wire c) (stopCommand a)))
            then [stopCommand a]
       else if negb (is_success (writeRead E (wire c ++ [stopCommand a])
                                   (psetCommand a position)))
            then [stopCommand a; psetCommand a position]
       else [stopCommand a; psetCommand a position; pesetCommand a encposition]).
Proof.
  intros a position encposition.
  pose proof (setPositionBranch_run E pAxis value c) as Hrun. cbv zeta in Hrun.
  rewrite Hrun. cbn [fst snd]. clear Hrun.
  change (wire (with_params ?f ?x)) with (wire x). fold a. fold position.
  destruct (lowLevelPortUser_ c) eqn:Hp; cbn [negb orb].
  2:{ destruct (writeReadIf_detached (stopCommand a) c Hp (stopCommand_nonempty a))
        as (Hs & Hw).
      rewrite Hs, !writeReadIf_false. cbn [fst snd]. by rewrite Hw, app_nil_r. }
  destruct (Z.eqb_spec (default 0 (commsFlag c)) 0) as [Hf|Hf]; cbn [negb].
  2:{ rewrite (writeReadIf_gated _ c Hp Hf (stopCommand_nonempty a)). cbn [fst snd].
      rewrite (writeReadIf_gated _ c Hp Hf (psetCommand_nonempty a position)).
      cbn [fst snd].
      rewrite (writeReadIf_gated _ c Hp Hf (pesetCommand_nonempty a _)).
      cbn [fst snd]. by rewrite app_nil_r. }
  destruct (writeReadIf_sent E (stopCommand a) c (stopCommand_nonempty a) Hp Hf)
    as (Hs1 & Hw1 & Hf1 & Hp1 & Hd1).
  set (c1 := snd (writeReadIf E (stopCommand a) true c)) in *.
  rewrite Hs1.
  destruct (is_success (writeRead E (wire c) (stopCommand a))) eqn:Hstop; cbn [negb].
  2:{ rewrite !writeReadIf_false. cbn [fst snd]. by rewrite Hw1. }
  assert (Hf1' : default 0 (commsFlag c1) = 0) by (by rewrite Hf1).
  destruct (writeReadIf_sent E (psetCommand a position) c1
              (psetCommand_nonempty a position) Hp1 Hf1') as (Hs2 & Hw2 & Hf2 & Hp2 & Hd2).
  set (c2 := snd (writeReadIf E (psetCommand a position) true c1)) in *.
  rewrite Hs2, Hw1.
  destruct (is_success (writeRead E (wire c ++ [stopCommand a]) (psetCommand a position)))
    eqn:Hpset; cbn [negb].
  2:{ rewrite writeReadIf_false. cbn [fst snd]. by rewrite Hw2, Hw1, <- app_assoc. }
  assert (Hratio : fst (readEncoderRatio c2) = fst (readEncoderRatio c)).
  { unfold readEncoderRatio. unfold_M. cbn [fst snd]. by rewrite Hd2, Hd1. }
  rewrite Hratio. fold encposition.
  rewrite Hw1, Hpset in Hf2.
  assert (Hf2' : default 0 (commsFlag c2) = 0) by (by rewrite Hf2).
  destruct (writeReadIf_sent E (pesetCommand a encposition) c2
              (pesetCommand_nonempty a encposition) Hp2 Hf2') as (_ & Hw3 & _).
  rewrite Hw3, Hw2, Hw1, <- !app_assoc. done.
Qed.

Lemma writeFloat64_position_branch_wire addr value c pAxis :
  getAxis addr c = Some pAxis →
  wire (snd (writeFloat64 E addr motorPosition_ value c)) =
    wire (snd (setPositionBranch E pAxis value true
                 (snd (setDoubleParam (axisNo_ pAxis) motorPosition_ value c)))).
Proof.
  intros Hax.
  by destruct (writeFloat64_result E addr motorPosition_ value c pAxis Hax)
    as (_ & _ & -> & _).
Qed.

Lemma readEncoderRatio_setDoubleParam list p v c :
  (list, p) ≠ (0, motorEncoderRatio_) →
  fst (readEncoderRatio (snd (setDoubleParam list p v c))) = fst (readEncoderRatio c).
Proof.
  intros Hne. unfold readEncoderRatio. unfold_M. cbn. by rewrite lookup_insert_ne.
Qed.

Lemma writeFloat64Branch_other pAxis function value x :
  function ≠ motorPosition_ →
  writeFloat64Branch E pAxis function value true x = (true, x).
Proof. intros Hfn. by destruct function. Qed.

End SetPositionWire.

(** X2.  The wire after a set-position, for every transport and every
    state: nothing when the port is detached or the comms flag is in error;
    otherwise the stop command, then the position-set command if the stop
    succeeded, then the encoder-set command if the position-set succeeded.
    Nothing else is ever sent and the order is fixed. *)
Theorem setPosition_wire (E : framework) (addr : Z) (value : float)
    (c : p6kController) (pAxis : p6kAxis) :
  getAxis addr c = Some pAxis →
  let a := axisNo_ pAxis in
  let position := round_floor_half value in
  let encposition :=
    round_floor_half (double_of_int position * fst (readEncoderRatio c))%float in
  wire (snd (writeFloat64 E addr motorPosition_ value c)) =
    wire c ++
      (if negb (lowLevelPortUser_ c) || negb (default 0 (commsFlag c) =? 0) then []
       else if negb (is_success (writeRead E (wire c) (stopCommand a)))
            then [stopCommand a]
       else if negb (is_success (writeRead E (wire c ++ [stopCommand a])
                                   (psetCommand a position)))
            then [stopCommand a; psetCommand a position]
       else [stopCommand a; psetCommand a position; pesetCommand a encposition]).
Proof.
  intros Hax. cbv zeta.
  rewrite (writeFloat64_position_branch_wire E addr value c pAxis Hax).
  set (c1 := snd (setDoubleParam (axisNo_ pAxis) motorPosition_ value c)).
  pose proof (setPositionBranch_sent E pAxis value c1) as H. cbv zeta in H.
  rewrite H. clear H. unfold c1.
  by rewrite readEncoderRatio_setDoubleParam.
Qed.

Lemma setPosition_wire_example :
  getAxis 3 atSeven = Some (mkAxis 3 0 0 0%float)
  ∧ wire (snd (writeFloat64 (quietFramework linkStopOnly) 3 motorPosition_ 100.4%float atSeven))
    = ["!3S"; "3PSET100"]
  ∧ wire (snd (writeFloat64 (quietFramework linkUp) 3 motorPosition_ 100.4%float afterTimeout))
    = wire afterTimeout.
Proof.
  assert (H1 : getAxis 3 atSeven = Some (mkAxis 3 0 0 0%float)) by (vm_compute; reflexivity).
  assert (H2 : getAxis 3 afterTimeout = Some (mkAxis 3 0 0 0%float))
    by (vm_compute; reflexivity).
  split; [exact H1|]. split.
  - rewrite (setPosition_wire (quietFramework linkStopOnly) 3 100.4%float atSeven _ H1).
    vm_compute. reflexivity.
  - rewrite (setPosition_wire (quietFramework linkUp) 3 100.4%float afterTimeout _ H2).
    vm_compute. reflexivity.
Defined.

(** X3.  A set-position made while the port is attached and the comms flag
    is in error reaches no device: nothing is sent, and yet the call returns
    [asynSuccess] and marks the axis's comms-error flag [P6K_OK_] whenever
    the base-class handler succeeds. *)
Theorem setPosition_on_flagged_link (E : framework) (addr : Z) (value : float)
    (c : p6kController) (pAxis : p6kAxis) :
  getAxis addr c = Some pAxis →
  lowLevelPortUser_ c = true →
  default 0 (commsFlag c) ≠ 0 →
  let c1 := snd (setDoubleParam (axisNo_ pAxis) motorPosition_ value c) in
  let l := getAxisStatus E (axisNo_ pAxis) (params c1) in
  let r := writeFloat64 E addr motorPosition_ value c in
  wire (snd r) = wire c
  ∧ errlog (snd r) = errlog c
  ∧ (fst r = asynSuccess ↔ fst (base_writeFloat64 E addr motorPosition_ value l) = asynSuccess)
  ∧ (fst (base_writeFloat64 E addr motorPosition_ value l) = asynSuccess →
       axisCommsError (axisNo_ pAxis) (snd r) = Some P6K_OK_).
Proof.
  intros Hax Hp Hf. cbv zeta.
  destruct (writeFloat64_result E addr motorPosition_ value c pAxis Hax)
    as (Hst & Hflag & Hwire & Herr & _).
  unfold writeFloat64Branch in Hst, Hflag, Hwire, Herr.
  set (c1 := snd (setDoubleParam (axisNo_ pAxis) motorPosition_ value c)) in *.
  assert (Hp1 : lowLevelPortUser_ c1 = true) by done.
  assert (Hf1 : default 0 (commsFlag c1) ≠ 0) by done.
  assert (Hb : setPositionBranch E pAxis value true c1
               = (true, with_params (getAxisStatus E (axisNo_ pAxis)) c1)).
  { pose proof (setPositionBranch_run E pAxis value c1) as Hrun. cbv zeta in Hrun.
    rewrite Hrun. clear Hrun.
    rewrite (writeReadIf_gated E _ c1 Hp1 Hf1 (stopCommand_nonempty _)). cbn [fst snd].
    rewrite (writeReadIf_gated E _ c1 Hp1 Hf1 (psetCommand_nonempty _ _)). cbn [fst snd].
    rewrite (writeReadIf_gated E _ c1 Hp1 Hf1 (pesetCommand_nonempty _ _)). done. }
  rewrite Hb in Hst, Hflag, Hwire, Herr. cbn [fst snd] in Hst, Hflag, Hwire, Herr.
  rewrite andb_true_r in Hst, Hflag.
  change (params (with_params ?f ?x)) with (f (params x)) in Hst, Hflag.
  split; [done|]. split; [done|]. split.
  - rewrite Hst.
    destruct (is_success (fst (base_writeFloat64 E addr motorPosition_ value
                (getAxisStatus E (axisNo_ pAxis) (params c1))))) eqn:Hbs.
    + apply is_success_true in Hbs. done.
    + apply is_success_false in Hbs. split; [discriminate | done].
  - intros Hok. rewrite Hflag. apply is_success_true in Hok. by rewrite Hok.
Qed.

Lemma setPosition_on_flagged_link_example :
  commsFlag afterTimeout = Some P6K_ERROR_
  ∧ fst (writeFloat64 (quietFramework linkUp) 3 motorPosition_ 100.4%float afterTimeout)
    = asynSuccess
  ∧ wire (snd (writeFloat64 (quietFramework linkUp) 3 motorPosition_ 100.4%float afterTimeout))
    = wire afterTimeout
  ∧ axisCommsError 3
      (snd (writeFloat64 (quietFramework linkUp) 3 motorPosition_ 100.4%float afterTimeout))
    = Some P6K_OK_.
Proof.
  split; [vm_compute; reflexivity|].
  pose proof (setPosition_on_flagged_link (quietFramework linkUp) 3 100.4%float afterTimeout
                (mkAxis 3 0 0 0%float)) as H.
  cbv zeta in H. destruct H as (Hw & _ & Hst & Hfl).
  - vm_compute; reflexivity.
  - vm_compute; reflexivity.
  - vm_compute; discriminate.
  - split; [by apply Hst|]. split; [exact Hw|]. by apply Hfl.
Defined.



(** X5.  The encoder ratio of a set-position is the one stored at asyn
    address 0: a ratio stored at any other address, the axis's own
    included, has no effect on what is sent. *)
Theorem setPosition_ignores_axis_ratio (E : framework) (addr list : Z)
    (value ratio : float) (c : p6kController) (pAxis : p6kAxis) :
  list ≠ 0 →
  getAxis addr c = Some pAxis →
  wire (snd (writeFloat64 E addr motorPosition_ value
               (snd (setDoubleParam list motorEncoderRatio_ ratio c))))
  = wire (snd (writeFloat64 E addr motorPosition_ value c)).
Proof.
  intros Hl Hax.
  set (c' := snd (setDoubleParam list motorEncoderRatio_ ratio c)).
  assert (Hax' : getAxis addr c' = Some pAxis) by done.
  rewrite (writeFloat64_position_branch_wire E addr value c' pAxis Hax').
  rewrite (writeFloat64_position_branch_wire E addr value c pAxis Hax).
  pose proof (setPositionBranch_sent E pAxis value
                (snd (setDoubleParam (axisNo_ pAxis) motorPosition_ value c'))) as H'.
  pose proof (setPositionBranch_sent E pAxis value
                (snd (setDoubleParam (axisNo_ pAxis) motorPosition_ value c))) as H.
  cbv zeta in H, H'. rewrite H, H'. clear H H'.
  rewrite !readEncoderRatio_setDoubleParam by congruence.
  unfold c'. rewrite readEncoderRatio_setDoubleParam by congruence. done.
Qed.

Lemma setPosition_ignores_axis_ratio_example :
  wire (snd (writeFloat64 (quietFramework linkUp) 3 motorPosition_ 100.4%float
               (snd (setDoubleParam 3 motorEncoderRatio_ 2%float eightAxes))))
  = ["!3S"; "3PSET100"; "3PESET100"].
Proof.
  rewrite (setPosition_ignores_axis_ratio (quietFramework linkUp) 3 3 100.4%float 2%float
             eightAxes (mkAxis 3 0 0 0%float)).
  - vm_compute; reflexivity.
  - discriminate.
  - vm_compute; reflexivity.
Defined.

(** ** The poll cycle: frame, time stamps, and the link after it *)

(** X6.  A poll cycle contacts no transport and reports no error, in any
    state: it leaves the wire, the error log, the axis table, the deferral
    flag, the port, every double parameter and every integer parameter other
    than the controller's comms flag as they were. *)
Theorem poll_frame (now : Z) (c : p6kController) :
  wire (snd (poll now c)) = wire c
  ∧ errlog (snd (poll now c)) = errlog c
  ∧ shape (snd (poll now c)) = shape c
  ∧ doubleParams (params (snd (poll now c))) = doubleParams (params c)
  ∧ (∀ k, k ≠ (0, P6K_C_CommsError_) →
       intParams (params (snd (poll now c))) !! k = intParams (params c) !! k).
Proof.
  split; [|split; [|split; [apply poll_shape|]]].
  - destruct (lowLevelPortUser_ c) eqn:Hp.
    + by destruct (poll_attached now c Hp) as (_ & _ & _ & ?).
    + by rewrite poll_detached.
  - destruct (lowLevelPortUser_ c) eqn:Hp.
    + by destruct (poll_attached now c Hp) as (_ & _ & ? & _).
    + by rewrite poll_detached.
  - unfold poll, getGlobalStatus. unfold_M. cbn.
    destruct (lowLevelPortUser_ c); cbn; [|done].
    destruct (now - lastTimeSecs_ c <? P6K_ERROR_PRINT_TIME_); cbn;
      change (is_success asynSuccess) with true; cbn;
      (split; [done|]); intros k Hk; by rewrite !lookup_insert_ne.
Qed.

(** X7.  The time of the last permitted report never goes back, whatever
    the clock reads; after a cycle with the port attached [nowTimeSecs_] is
    the clock reading and the last permitted report is less than one
    interval behind it. *)
Theorem poll_time_stamps (now : Z) (c : p6kController) :
  lastTimeSecs_ c <= lastTimeSecs_ (snd (poll now c))
  ∧ (lowLevelPortUser_ c = true →
       nowTimeSecs_ (snd (poll now c)) = now
       ∧ now - lastTimeSecs_ (snd (poll now c)) < P6K_ERROR_PRINT_TIME_
       ∧ (lastTimeSecs_ c <= now → lastTimeSecs_ (snd (poll now c)) = now))
  ∧ (lowLevelPortUser_ c = false →
       nowTimeSecs_ (snd (poll now c)) = nowTimeSecs_ c).
Proof.
  unfold poll, getGlobalStatus, P6K_ERROR_PRINT_TIME_. unfold_M. cbn.
  destruct (lowLevelPortUser_ c); cbn.
  - destruct (Z.ltb_spec (now - lastTimeSecs_ c) 1); cbn;
      change (is_success asynSuccess) with true; cbn;
      (split; [lia|]); (split; [|done]); intros _; repeat split; lia.
  - split; [lia|]. split; [done|]. done.
Qed.

(** X8.  A poll cycle with the port attached reopens the link: whatever the
    comms flag was before it, the next exchange is handed to the transport
    and returns the transport's status. *)
Theorem poll_reopens_link (E : framework) (now : Z) (command : string)
    (c : p6kController) :
  lowLevelPortUser_ c = true →
  fst (lowLevelWriteRead E command (snd (poll now c))) = writeRead E (wire c) command
  ∧ wire (snd (lowLevelWriteRead E command (snd (poll now c)))) = wire c ++ [command].
Proof.
  intros Hp. destruct (poll_attached now c Hp) as (_ & Hflag & _ & Hw).
  assert (Hp' : lowLevelPortUser_ (snd (poll now c)) = true).
  { pose proof (poll_shape now c) as Hs. unfold shape in Hs. congruence. }
  assert (Hf' : default 0 (commsFlag (snd (poll now c))) = 0) by (by rewrite Hflag).
  destruct (lowLevelWriteRead_sent E command _ Hp' Hf') as (-> & -> & _).
  by rewrite Hw.
Qed.

Lemma poll_reopens_link_example :
  lowLevelWriteRead (quietFramework linkUp) "!3S" afterTimeout = (asynSuccess, afterTimeout)
  ∧ wire (snd (lowLevelWriteRead (quietFramework linkUp) "!3S" (snd (poll 100 afterTimeout))))
    = wire afterTimeout ++ ["!3S"].
Proof.
  split; [vm_compute; reflexivity|].
  apply (poll_reopens_link (quietFramework linkUp) 100 "!3S" afterTimeout).
  vm_compute; reflexivity.
Defined.

(** ** The exact effect of the deferred-move dispatch on the axis table *)

Lemma clearDeferredMove_id (ax : p6kAxis) :
  deferredMove_ ax = 0 → clearDeferredMove ax = ax.
Proof. destruct ax as [n d r p]. cbn. intros ->. reflexivity. Qed.

Lemma clearEntry_idemp (e : option (option p6kAxis)) :
  clearEntry <$> (clearEntry <$> e) = clearEntry <$> e.
Proof. by destruct e as [[ax|]|]. Qed.

Lemma clearDeferred_lookup c axis i :
  0 <= axis < numAxes_ c →
  pAxes_ (clearDeferred c axis) !! i =
    if decide (i = Z.to_nat axis)
    then clearEntry <$> (pAxes_ c !! i)
    else pAxes_ c !! i.
Proof.
  intros Hr. unfold clearDeferred. rewrite (getAxis_lookup _ _ Hr).
  destruct (decide (i = Z.to_nat axis)) as [->|Hne].
  - destruct (pAxes_ c !! Z.to_nat axis) as [[pAxis|]|] eqn:Hl; cbn.
    + destruct (bool_decide_reflect (deferredMove_ pAxis ≠ 0)) as [Hd|Hd].
      * cbn. rewrite list_lookup_insert_eq; [done|]. by apply lookup_lt_Some in Hl.
      * rewrite Hl. cbn. rewrite clearDeferredMove_id; [done|]. lia.
    + by rewrite Hl.
    + by rewrite Hl.
  - destruct (pAxes_ c !! Z.to_nat axis) as [[pAxis|]|]; cbn; try done.
    destruct (bool_decide (deferredMove_ pAxis ≠ 0)); [|done].
    cbn. by rewrite list_lookup_insert_ne.
Qed.

Lemma clearLoop_lookup l c i :
  (∀ x, x ∈ l → 0 <= x < numAxes_ c) →
  pAxes_ (foldl clearDeferred c l) !! i =
    if decide (Z.of_nat i ∈ l)
    then clearEntry <$> (pAxes_ c !! i)
    else pAxes_ c !! i.
Proof.
  revert c. induction l as [|x l IH]; intros c Hr.
  - cbn. destruct (decide (Z.of_nat i ∈ [])) as [Hin|_]; [|done].
    by apply elem_of_nil in Hin.
  - cbn [foldl].
    assert (Hx : 0 <= x < numAxes_ c) by (apply Hr; left).
    rewrite IH.
    2:{ intros y Hy. destruct (clearDeferred_fields c x) as (-> & _). apply Hr. by right. }
    rewrite (clearDeferred_lookup c x i Hx).
    pose proof (elem_of_cons l (Z.of_nat i) x) as Hc.
    assert (Hiff : i = Z.to_nat x ↔ Z.of_nat i = x) by lia.
    destruct (decide (Z.of_nat i ∈ l)) as [Hin|Hin];
      destruct (decide (i = Z.to_nat x)) as [Hi|Hi];
      destruct (decide (Z.of_nat i ∈ x :: l)) as [Hin'|Hin'];
      rewrite ?clearEntry_idemp; try done; exfalso; tauto.
Qed.

(** X9.  Whatever the exchange does, [processDeferredMoves] changes the axis
    table in one way only: every axis has its [deferredMove_] set to 0, and
    keeps its number, its deferred position and its relative flag; NULL
    entries stay NULL, and [movesDeferred_] and [numAxes_] are not touched.
    A second run leaves the table as the first left it. *)
Theorem processDeferredMoves_table (E : framework) (c : p6kController) :
  wf c →
  pAxes_ (snd (processDeferredMoves E c)) = clearEntry <$> pAxes_ c
  ∧ movesDeferred_ (snd (processDeferredMoves E c)) = movesDeferred_ c
  ∧ numAxes_ (snd (processDeferredMoves E c)) = numAxes_ c
  ∧ pAxes_ (snd (processDeferredMoves E (snd (processDeferredMoves E c))))
    = pAxes_ (snd (processDeferredMoves E c)).
Proof.
  assert (Hone : ∀ c', wf c' →
            pAxes_ (snd (processDeferredMoves E c')) = clearEntry <$> pAxes_ c').
  { intros c' Hwf. rewrite processDeferredMoves_unfold. cbv zeta. cbn [snd].
    set (c1 := if is_success (fst (lowLevelWriteRead E "" c')) then _ else _).
    assert (H1 : pAxes_ c1 = pAxes_ c' ∧ numAxes_ c1 = numAxes_ c').
    { pose proof (lowLevelWriteRead_shape E "" c') as Hs.
      apply shape_fields in Hs as (Hn & Hp & _).
      unfold c1. destruct (is_success _); unfold_M; cbn; by rewrite Hn, Hp. }
    destruct H1 as (Hp1 & Hn1).
    apply list_eq. intros i. rewrite clearLoop_lookup.
    2:{ intros x Hx. apply elem_of_seqZ in Hx. lia. }
    rewrite Hp1, Hn1, list_lookup_fmap.
    destruct (decide (Z.of_nat i ∈ seqZ 0 (numAxes_ c'))) as [Hin|Hin]; [done|].
    rewrite elem_of_seqZ in Hin.
    assert (Hge : (length (pAxes_ c') ≤ i)%nat) by (unfold wf in Hwf; lia).
    apply lookup_ge_None in Hge. by rewrite Hge. }
  intros Hwf.
  destruct (processDeferredMoves_fields E c) as (Hn & Hm & Hlen & _).
  split; [by apply Hone|]. split; [done|]. split; [done|].
  rewrite Hone.
  2:{ unfold wf in *. by rewrite Hlen, Hn. }
  rewrite (Hone c Hwf). apply list_eq. intros i.
  rewrite !list_lookup_fmap. destruct (pAxes_ c !! i) as [[ax|]|]; done.
Qed.

Lemma processDeferredMoves_table_example :
  pAxes_ deferred257 !! 5%nat = Some (Some (mkAxis 5 1 1 20%float))
  ∧ pAxes_ (snd (processDeferredMoves (quietFramework linkDown) deferred257)) !! 5%nat
    = Some (Some (mkAxis 5 0 1 20%float)).
Proof.
  split; [vm_compute; reflexivity|].
  pose proof (processDeferredMoves_table (quietFramework linkDown) deferred257) as H.
  destruct H as (H & _).
  - vm_compute; reflexivity.
  - rewrite H. vm_compute. reflexivity.
Defined.

(** X10.  A dispatch made while the port is attached and the comms flag is
    in error contacts no transport, returns [asynSuccess], clears every
    pending move and resets the comms flag to [P6K_OK_]. *)
Theorem dispatch_on_flagged_link (E : framework) (c : p6kController) :
  lowLevelPortUser_ c = true →
  default 0 (commsFlag c) ≠ 0 →
  fst (processDeferredMoves E c) = asynSuccess
  ∧ wire (snd (processDeferredMoves E c)) = wire c
  ∧ errlog (snd (processDeferredMoves E c)) = errlog c
  ∧ commsFlag (snd (processDeferredMoves E c)) = Some P6K_OK_
  ∧ none_pending (snd (processDeferredMoves E c)).
Proof.
  intros Hp Hf.
  split; [|split; [|split; [|split; [|apply processDeferredMoves_none_pending]]]].
  all: rewrite processDeferredMoves_unfold; cbv zeta;
       rewrite (lowLevelWriteRead_gated E "" c Hp Hf); cbn [fst snd];
       change (is_success asynSuccess) with true; cbv iota.
  - done.
  - match goal with |- context [foldl clearDeferred ?x ?l] =>
      by destruct (clearLoop_fields l x) as (_ & _ & _ & _ & -> & _) end.
  - match goal with |- context [foldl clearDeferred ?x ?l] =>
      by destruct (clearLoop_fields l x) as (_ & _ & _ & _ & _ & -> & _) end.
  - unfold commsFlag.
    match goal with |- context [foldl clearDeferred ?x ?l] =>
      destruct (clearLoop_fields l x) as (_ & _ & _ & -> & _) end.
    unfold_M. cbn. apply lookup_insert_eq.
Qed.

(** [deferred257] after a transport time-out has put the flag in error. *)
Lemma dispatch_on_flagged_link_example :
  commsFlag (snd (lowLevelWriteRead (quietFramework linkDown) "!3S" deferred257))
    = Some P6K_ERROR_
  ∧ fst (processDeferredMoves (quietFramework linkUp)
           (snd (lowLevelWriteRead (quietFramework linkDown) "!3S" deferred257)))
    = asynSuccess
  ∧ commsFlag (snd (processDeferredMoves (quietFramework linkUp)
           (snd (lowLevelWriteRead (quietFramework linkDown) "!3S" deferred257))))
    = Some P6K_OK_.
Proof.
  split; [vm_compute; reflexivity|].
  pose proof (dispatch_on_flagged_link (quietFramework linkUp)
                (snd (lowLevelWriteRead (quietFramework linkDown) "!3S" deferred257))) as H.
  destruct H as (H1 & _ & _ & H2 & _).
  - vm_compute; reflexivity.
  - vm_compute; discriminate.
  - split; [exact H1 | exact H2].
Defined.

(** ** [writeInt32] and the deferral flag *)

Section WriteInt32Facts.

Context (E : framework).

Lemma writeInt32_result addr function value c pAxis :
  getAxis addr c = Some pAxis →
  let c1 := snd (setIntegerParam (axisNo_ pAxis) function value c) in
  let d := if bool_decide (function = motorDeferMoves_)
              && (value =? 0) && negb (movesDeferred_ c1 =? 0)
           then (is_success (fst (processDeferredMoves E c1)),
                 snd (processDeferredMoves E c1))
           else (true, c1) in
  let c2 := if bool_decide (function = motorDeferMoves_)
            then with_movesDeferred value (snd d) else snd d in
  let h := base_writeInt32 E addr function value (params c2) in
  let r := writeInt32 E addr function value c in
  fst r = (if is_success (fst h) && fst d then asynSuccess else asynError)
  ∧ axisCommsError (axisNo_ pAxis) (snd r) =
      Some (if is_success (fst h) && fst d then P6K_OK_ else P6K_ERROR_)
  ∧ wire (snd r) = wire (snd d)
  ∧ errlog (snd r) = errlog (snd d)
  ∧ pAxes_ (snd r) = pAxes_ (snd d)
  ∧ numAxes_ (snd r) = numAxes_ (snd d)
  ∧ lowLevelPortUser_ (snd r) = lowLevelPortUser_ (snd d)
  ∧ movesDeferred_ (snd r) =
      (if bool_decide (function = motorDeferMoves_) then value
       else movesDeferred_ (snd d)).
Proof.
  intros Hax. cbv zeta. rewrite (writeInt32_unfold E _ _ _ _ _ Hax). cbv zeta.
  set (c1 := snd (setIntegerParam (axisNo_ pAxis) function value c)).
  set (d := if bool_decide (function = motorDeferMoves_)
               && (value =? 0) && negb (movesDeferred_ c1 =? 0)
            then _ else _).
  set (c2 := if bool_decide (function = motorDeferMoves_)
             then with_movesDeferred value (snd d) else snd d).
  destruct (reportAxisStatus_result pAxis
              (is_success (fst (callBase (base_writeInt32 E addr function value) c2)) && fst d)
              (snd (callBase (base_writeInt32 E addr function value) c2)))
    as (-> & -> & -> & -> & Hs & _).
  apply shape_fields in Hs as (-> & -> & ->).
  assert (Hport : ∀ s x, lowLevelPortUser_ (snd (reportAxisStatus pAxis s x))
                          = lowLevelPortUser_ x).
  { intros s x. unfold reportAxisStatus. unfold_M. by destruct s. }
  rewrite Hport. unfold callBase. cbn [fst snd].
  unfold c2. destruct (bool_decide (function = motorDeferMoves_)); done.
Qed.

Lemma processDeferredMoves_port c :
  lowLevelPortUser_ (snd (processDeferredMoves E c)) = lowLevelPortUser_ c.
Proof.
  rewrite processDeferredMoves_unfold. cbv zeta. cbn [snd].
  match goal with |- context [foldl clearDeferred ?x ?l] =>
    destruct (clearLoop_fields l x) as (_ & _ & -> & _) end.
  pose proof (lowLevelWriteRead_port E "" c) as Hp.
  destruct (is_success (fst (lowLevelWriteRead E "" c))); unfold_M; cbn; done.
Qed.

End WriteInt32Facts.



(** X12.  A release of defer mode whose exchange fails returns [asynError]
    and marks the axis's comms-error flag, and the pending moves are gone
    all the same: deferral is off, no axis has a pending move, and the one
    command on the wire is the empty string. *)
Theorem release_with_failed_exchange (E : framework) (addr : Z) (c : p6kController)
    (pAxis : p6kAxis) :
  getAxis addr c = Some pAxis →
  movesDeferred_ c ≠ 0 →
  lowLevelPortUser_ c = true →
  default 0 (commsFlag c) = 0 →
  writeRead E (wire c) "" ≠ asynSuccess →
  let r := writeInt32 E addr motorDeferMoves_ 0 c in
  fst r = asynError
  ∧ axisCommsError (axisNo_ pAxis) (snd r) = Some P6K_ERROR_
  ∧ movesDeferred_ (snd r) = 0
  ∧ none_pending (snd r)
  ∧ wire (snd r) = wire c ++ [""].
Proof.
  intros Hax Hm Hp Hf Hfail. cbv zeta.
  destruct (writeInt32_result E addr motorDeferMoves_ 0 c pAxis Hax)
    as (Hst & Hflag & Hw & _ & Hpa & Hn & _ & Hmd).
  set (c1 := snd (setIntegerParam (axisNo_ pAxis) motorDeferMoves_ 0 c)) in *.
  assert (Hm1 : movesDeferred_ c1 = movesDeferred_ c) by done.
  assert (Hp1 : lowLevelPortUser_ c1 = true) by done.
  assert (Hw1 : wire c1 = wire c) by done.
  assert (Hf1 : default 0 (commsFlag c1) = 0).
  { unfold commsFlag, c1. unfold_M. cbn. by rewrite lookup_insert_ne. }
  assert (Hd : bool_decide (motorDeferMoves_ = motorDeferMoves_)
                 && (0 =? 0) && negb (movesDeferred_ c1 =? 0) = true).
  { rewrite Hm1. destruct (Z.eqb_spec (movesDeferred_ c) 0); done. }
  rewrite Hd in Hst, Hflag, Hw, Hpa, Hn. cbn [fst snd] in Hst, Hflag, Hw, Hpa, Hn.
  destruct (lowLevelWriteRead_sent E "" c1 Hp1 Hf1) as (Hs & Hws & _).
  rewrite Hw1 in Hs, Hws.
  assert (Hdisp : is_success (fst (processDeferredMoves E c1)) = false).
  { rewrite processDeferredMoves_unfold. cbv zeta. cbn [fst]. rewrite Hs.
    apply is_success_false in Hfail. by rewrite Hfail. }
  rewrite Hdisp, andb_false_r in Hst, Hflag.
  split; [done|]. split; [done|]. split; [by rewrite Hmd|]. split.
  - intros a ax Ha. unfold getAxis in Ha. rewrite Hpa, Hn in Ha.
    by apply (processDeferredMoves_none_pending E c1 a).
  - rewrite Hw. destruct (processDeferredMoves_fields E c1) as (_ & _ & _ & ->). done.
Qed.

Lemma release_with_failed_exchange_example :
  pendingAxes deferred257 = [2; 5; 7]
  ∧ fst (writeInt32 (quietFramework linkDown) 0 motorDeferMoves_ 0 deferred257) = asynError
  ∧ movesDeferred_ (snd (writeInt32 (quietFramework linkDown) 0 motorDeferMoves_ 0 deferred257))
    = 0
  ∧ pendingAxes (snd (writeInt32 (quietFramework linkDown) 0 motorDeferMoves_ 0 deferred257))
    = [].
Proof.
  split; [vm_compute; reflexivity|].
  pose proof (release_with_failed_exchange (quietFramework linkDown) 0 deferred257
                (mkAxis 0 0 0 0%float)) as H.
  cbv zeta in H. destruct H as (H1 & _ & H2 & _).
  - vm_compute; reflexivity.
  - vm_compute; discriminate.
  - vm_compute; reflexivity.
  - vm_compute; reflexivity.
  - vm_compute; discriminate.
  - split; [exact H1|]. split; [exact H2|]. vm_compute. reflexivity.
Defined.

(** ** A controller without a port *)

Section Detached.

Context (E : framework).

Lemma writeFloat64_detached_wire addr function value c :
  lowLevelPortUser_ c = false →
  wire (snd (writeFloat64 E addr function value c)) = wire c.
Proof.
  intros Hp. destruct (getAxis addr c) as [pAxis|] eqn:Hax.
  2:{ by rewrite writeFloat64_no_axis. }
  destruct (decide (function = motorPosition_)) as [->|Hfn].
  - rewrite (writeFloat64_position_branch_wire E addr value c pAxis Hax).
    pose proof (setPositionBranch_sent E pAxis value
                  (snd (setDoubleParam (axisNo_ pAxis) motorPosition_ value c))) as H.
    cbv zeta in H. rewrite H. clear H.
    change (lowLevelPortUser_ (snd (setDoubleParam ?a ?f ?v c))) with (lowLevelPortUser_ c).
    rewrite Hp. cbn [negb orb]. by rewrite app_nil_r.
  - destruct (writeFloat64_result E addr function value c pAxis Hax) as (_ & _ & -> & _).
    by rewrite (writeFloat64Branch_other E pAxis function value _ Hfn).
Qed.

Lemma processDeferredMoves_detached c :
  lowLevelPortUser_ c = false →
  fst (processDeferredMoves E c) = asynError
  ∧ wire (snd (processDeferredMoves E c)) = wire c.
Proof.
  intros Hp. destruct (lowLevelWriteRead_detached E "" c Hp) as (Hs & Hw & _). split.
  - rewrite processDeferredMoves_unfold. cbv zeta. cbn [fst]. by rewrite Hs.
  - destruct (processDeferredMoves_fields E c) as (_ & _ & _ & ->). done.
Qed.

Lemma writeInt32_detached_wire addr function value c :
  lowLevelPortUser_ c = false →
  wire (snd (writeInt32 E addr function value c)) = wire c.
Proof.
  intros Hp. destruct (getAxis addr c) as [pAxis|] eqn:Hax.
  2:{ by rewrite writeInt32_no_axis. }
  destruct (writeInt32_result E addr function value c pAxis Hax) as (_ & _ & -> & _).
  set (c1 := snd (setIntegerParam (axisNo_ pAxis) function value c)).
  destruct (bool_decide (function = motorDeferMoves_)
              && (value =? 0) && negb (movesDeferred_ c1 =? 0)); cbn [snd]; [|done].
  by destruct (processDeferredMoves_detached c1 Hp) as (_ & ->).
Qed.

Lemma writeInt32_port addr function value c :
  lowLevelPortUser_ (snd (writeInt32 E addr function value c)) = lowLevelPortUser_ c.
Proof.
  destruct (getAxis addr c) as [pAxis|] eqn:Hax.
  2:{ by rewrite writeInt32_no_axis. }
  destruct (writeInt32_result E addr function value c pAxis Hax)
    as (_ & _ & _ & _ & _ & _ & -> & _).
  set (c1 := snd (setIntegerParam (axisNo_ pAxis) function value c)).
  destruct (bool_decide (function = motorDeferMoves_)
              && (value =? 0) && negb (movesDeferred_ c1 =? 0)); cbn [snd]; [|done].
  by rewrite processDeferredMoves_port.
Qed.

Lemma writeFloat64_port addr function value c :
  lowLevelPortUser_ (snd (writeFloat64 E addr function value c)) = lowLevelPortUser_ c.
Proof.
  pose proof (writeFloat64_shape E addr function value c) as Hs. unfold shape in Hs.
  congruence.
Qed.

Lemma requestMove_port_wire addr target relative c :
  lowLevelPortUser_ (snd (requestMove E addr target relative c)) = lowLevelPortUser_ c
  ∧ wire (snd (requestMove E addr target relative c)) = wire c.
Proof.
  unfold requestMove, callBase. unfold_M. cbv zeta. cbn [fst snd].
  destruct (getAxis addr c); [|done].
  destruct (negb (movesDeferred_ c =? 0)); done.
Qed.

Lemma newAxis_port_wire axis c :
  lowLevelPortUser_ (snd (newAxis axis c)) = lowLevelPortUser_ c
  ∧ wire (snd (newAxis axis c)) = wire c.
Proof.
  unfold newAxis. unfold_M. cbn [fst snd].
  destruct ((0 <=? axis) && (axis <? numAxes_ c)); done.
Qed.

Lemma createLoop_port_wire l c :
  lowLevelPortUser_ (foldl (λ c axis, snd (newAxis axis c)) c l) = lowLevelPortUser_ c
  ∧ wire (foldl (λ c axis, snd (newAxis axis c)) c l) = wire c.
Proof.
  revert c. induction l as [|axis l IH]; intros c; [done|]. cbn [foldl].
  destruct (IH (snd (newAxis axis c))) as (-> & ->). apply newAxis_port_wire.
Qed.

(** A state reached without a port has an empty wire. *)
Lemma reachable_detached_wire c :
  reachable E c → lowLevelPortUser_ c = false → wire c = [].
Proof.
  induction 1 as [numAxes port Hn | c axis _ IH _ | c n _ IH _ | c addr function value _ IH
                 | c addr function value _ IH | c now _ IH | c addr target relative _ IH];
    intros Hp.
  - unfold p6kController_new, newAxis. unfold_M. cbn.
    destruct (is_success (fst port)), (0 <? numAxes + 1); reflexivity.
  - unfold p6kCreateAxis in *. destruct (axis =? 0); [by apply IH|].
    unfold bind, ret in *. cbn [fst snd] in *.
    destruct (newAxis_port_wire axis c) as (Hp' & ->). apply IH. by rewrite <- Hp'.
  - unfold p6kCreateAxes in *. unfold_M. cbn [fst snd] in *.
    destruct (createLoop_port_wire (seqZ 1 n) c) as (Hp' & ->). apply IH. by rewrite <- Hp'.
  - rewrite writeFloat64_port in Hp. rewrite writeFloat64_detached_wire; auto.
  - rewrite writeInt32_port in Hp. rewrite writeInt32_detached_wire; auto.
  - pose proof (poll_shape now c) as Hs. unfold shape in Hs.
    assert (Hp' : lowLevelPortUser_ c = false) by congruence.
    rewrite (poll_detached now c Hp'). by apply IH.
  - destruct (requestMove_port_wire addr target relative c) as (Hp' & ->).
    apply IH. by rewrite <- Hp'.
Qed.

End Detached.

(** X13.  With [lowLevelPortUser_] NULL no member function reaches the
    transport: an exchange and a dispatch return [asynError], a poll returns
    [asynError] and changes nothing, and a write of any parameter leaves the
    wire as it was; none of them attaches a port. *)
Theorem detached_operations_send_nothing (E : framework) (c : p6kController) :
  lowLevelPortUser_ c = false →
  (∀ command, fst (lowLevelWriteRead E command c) = asynError
              ∧ wire (snd (lowLevelWriteRead E command c)) = wire c)
  ∧ (fst (processDeferredMoves E c) = asynError
     ∧ wire (snd (processDeferredMoves E c)) = wire c)
  ∧ (∀ now, poll now c = (asynError, c))
  ∧ (∀ addr function value,
       wire (snd (writeFloat64 E addr function value c)) = wire c
       ∧ lowLevelPortUser_ (snd (writeFloat64 E addr function value c)) = false)
  ∧ (∀ addr function value,
       wire (snd (writeInt32 E addr function value c)) = wire c
       ∧ lowLevelPortUser_ (snd (writeInt32 E addr function value c)) = false).
Proof.
  intros Hp. split; [|split; [|split; [|split]]].
  - intros command. by destruct (lowLevelWriteRead_detached E command c Hp) as (? & ? & _).
  - by apply processDeferredMoves_detached.
  - intros now. by apply poll_detached.
  - intros addr function value. split; [by apply writeFloat64_detached_wire|].
    by rewrite writeFloat64_port.
  - intros addr function value. split; [by apply writeInt32_detached_wire|].
    by rewrite writeInt32_port.
Qed.

Lemma detached_operations_send_nothing_example :
  lowLevelPortUser_ detachedCleared = false
  ∧ wire (snd (writeFloat64 (quietFramework linkUp) 3 motorPosition_ 5%float detachedCleared))
    = wire detachedCleared.
Proof.
  assert (Hp : lowLevelPortUser_ detachedCleared = false) by (vm_compute; reflexivity).
  split; [exact Hp|].
  destruct (detached_operations_send_nothing (quietFramework linkUp) detachedCleared Hp)
    as (_ & _ & _ & Hw & _).
  exact (proj1 (Hw 3 motorPosition_ 5%float)).
Defined.

(** X14.  The port is attached at construction or never: in every state
    reached from a controller whose port setup failed the wire is empty. *)
Theorem never_attached_never_sends (E : framework) (c : p6kController) :
  reachable E c → lowLevelPortUser_ c = false → wire c = [] ∧ ∀ now, fst (poll now c) = asynError.
Proof.
  intros Hc Hp. split; [by apply (reachable_detached_wire E)|].
  intros now. by rewrite poll_detached.
Qed.

Lemma never_attached_never_sends_example :
  wire (snd (writeInt32 (quietFramework linkUp) 0 motorDeferMoves_ 0
          (snd (writeInt32 (quietFramework linkUp) 0 motorDeferMoves_ 1
             (p6kController_new 8 portFailed))))) = [].
Proof.
  apply (never_attached_never_sends (quietFramework linkUp)).
  - apply reach_writeInt32, reach_writeInt32, reach_new. done.
  - vm_compute; reflexivity.
Defined.

(** ** Port setup and construction *)


(** ** The length of the formatted commands *)

Lemma string_length_app (s t : string) :
  String.length (s +:+ t) = (String.length s + String.length t)%nat.
Proof.
  induction s as [|a s IH]; [done|].
  change (String.length (String a (s +:+ t)) = S (String.length s + String.length t)).
  cbn [String.length]. by rewrite IH.
Qed.

Lemma pretty_N_go_length (k : nat) : ∀ (x : N) (s : string),
  (x < 10 ^ N.of_nat k)%N →
  (String.length (pretty_N_go x s) ≤ String.length s + k)%nat.
Proof.
  induction k as [|k IH]; intros x s Hx.
  - assert (x = 0%N) as -> by (cbn in Hx; lia). rewrite pretty_N_go_0. lia.
  - destruct (decide (x = 0%N)) as [->|Hne]; [rewrite pretty_N_go_0; lia|].
    rewrite pretty_N_go_step by lia.
    etrans; [apply IH|cbn; lia].
    rewrite Nat2N.inj_succ, N.pow_succ_r' in Hx.
    apply N.Div0.div_lt_upper_bound. lia.
Qed.

Lemma pretty_Z_length (z : Z) :
  - 10 ^ 10 < z < 10 ^ 10 → (String.length (pretty z) ≤ 11)%nat.
Proof.
  intros Hz.
  assert (HN : ∀ p, Z.pos p < 10 ^ 10 → (String.length (pretty (N.pos p)) ≤ 10)%nat).
  { intros p Hp. unfold pretty, pretty_N.
    destruct (decide (N.pos p = 0%N)); [done|].
    pose proof (pretty_N_go_length 10 (N.pos p) "") as H. cbn [String.length] in H.
    apply H. change (10 ^ N.of_nat 10)%N with (Z.to_N (10 ^ 10)). lia. }
  destruct z as [|p|p].
  - cbn. lia.
  - change (pretty (Z.pos p)) with (pretty (N.pos p)).
    etrans; [apply HN; lia | lia].
  - change (pretty (Z.neg p)) with ("-" +:+ pretty (N.pos p)).
    change (S (String.length (pretty (N.pos p))) ≤ 11)%nat. apply le_n_S, HN. lia.
Qed.

Lemma in_epicsInt32_bounds z : in_epicsInt32 z = true → - 10 ^ 10 < z < 10 ^ 10.
Proof.
  unfold in_epicsInt32, INT32_MIN, INT32_MAX. intros H.
  apply andb_true_iff in H as [H1 H2]. apply Z.leb_le in H1, H2. lia.
Qed.

Lemma round_floor_half_in_range x : in_epicsInt32 (round_floor_half x) = true.
Proof.
  unfold round_floor_half, epicsInt32_of_floor.
  destruct (floorZ (x + 0.5)%float) as [z|]; [|reflexivity].
  destruct (in_epicsInt32 z) eqn:Hz; [exact Hz | reflexivity].
Qed.

(** X16.  For an axis number that is an [int], every command [writeFloat64]
    formats is short: the stop command has at most 13 characters, the
    position-set command at most 26 and the encoder-set command at most 27,
    whatever the value written and the encoder ratio; the values sent are
    always [epicsInt32] values. *)
Theorem command_lengths (axisNo : Z) (value x : float) :
  in_epicsInt32 axisNo = true →
  in_epicsInt32 (round_floor_half value) = true
  ∧ (String.length (stopCommand axisNo) ≤ 13)%nat
  ∧ (String.length (psetCommand axisNo (round_floor_half value)) ≤ 26)%nat
  ∧ (String.length (pesetCommand axisNo (round_floor_half x)) ≤ 27)%nat.
Proof.
  intros Ha. apply in_epicsInt32_bounds, pretty_Z_length in Ha.
  pose proof (pretty_Z_length _ (in_epicsInt32_bounds _ (round_floor_half_in_range value)))
    as Hv.
  pose proof (pretty_Z_length _ (in_epicsInt32_bounds _ (round_floor_half_in_range x)))
    as Hx.
  split; [apply round_floor_half_in_range|].
  unfold stopCommand, psetCommand, pesetCommand.
  rewrite !string_length_app. cbn [String.length]. lia.
Qed.

Lemma command_lengths_example :
  psetCommand 3 (round_floor_half (-2147483648.4)%float) = "3PSET-2147483648"
  ∧ (String.length (psetCommand 3 (round_floor_half (-2147483648.4)%float)) ≤ 26)%nat.
Proof.
  split; [vm_compute; reflexivity|].
  apply (command_lengths 3 (-2147483648.4)%float 0%float). vm_compute; reflexivity.
Defined.

(** ** Creating axes *)

Lemma newAxis_lookup axis c a :
  0 <= axis < numAxes_ c → wf c →
  getAxis a (snd (newAxis axis c)) =
    if decide (a = axis) then Some (mkAxis axis 0 0 0%float) else getAxis a c.
Proof.
  intros Hr Hwf. destruct (newAxis_fields axis c) as (Hn & _ & _).
  unfold getAxis. rewrite Hn.
  destruct (Z.ltb_spec a 0) as [Hlt|Hge]; cbn [orb].
  { destruct (decide (a = axis)); [lia | done]. }
  destruct (Z.geb_spec a (numAxes_ c)) as [Hout|Hin]; cbn [orb].
  { destruct (decide (a = axis)); [lia | done]. }
  unfold newAxis. unfold_M. cbn [fst snd].
  destruct (Z.leb_spec 0 axis); [|lia]. destruct (Z.ltb_spec axis (numAxes_ c)); [|lia].
  cbn. destruct (decide (a = axis)) as [->|Hne].
  - rewrite list_lookup_insert_eq; [done|]. unfold wf in Hwf. lia.
  - rewrite list_lookup_insert_ne; [done|]. lia.
Qed.



Lemma createLoop_lookup l : ∀ c a,
  wf c → (∀ x, x ∈ l → 0 <= x < numAxes_ c) →
  getAxis a (foldl (λ c axis, snd (newAxis axis c)) c l) =
    if decide (a ∈ l) then Some (mkAxis a 0 0 0%float) else getAxis a c.
Proof.
  induction l as [|x l IH]; intros c a Hwf Hr.
  - cbn. destruct (decide (a ∈ [])) as [Hin|_]; [|done]. by apply elem_of_nil in Hin.
  - cbn [foldl].
    assert (Hx : 0 <= x < numAxes_ c) by (apply Hr; left).
    destruct (newAxis_fields x c) as (Hn & _ & Hlen).
    rewrite IH.
    2:{ unfold wf in *. by rewrite Hlen, Hn. }
    2:{ intros y Hy. rewrite Hn. apply Hr. by right. }
    rewrite (newAxis_lookup x c a Hx Hwf).
    pose proof (elem_of_cons l a x) as Hc.
    destruct (decide (a ∈ l)), (decide (a = x)), (decide (a ∈ x :: l));
      try done; try (exfalso; tauto). by subst.
Qed.

Lemma createAxes_getAxis (numAxes : Z) (port : asynStatus * bool) (a : Z) :
  0 <= numAxes →
  getAxis a (snd (p6kCreateAxes numAxes (p6kController_new numAxes port))) =
    if decide (0 <= a <= numAxes) then Some (mkAxis a 0 0 0%float) else None.
Proof.
  intros Hn.
  destruct (p6kController_new_invariants numAxes port) as [Hwf _].
  pose proof (p6kController_new_numAxes numAxes port) as Hnum.
  unfold p6kCreateAxes. unfold_M. cbn [fst snd].
  rewrite createLoop_lookup; [|done|].
  2:{ intros x Hx. apply elem_of_seqZ in Hx. lia. }
  assert (H0 : ∀ b, getAxis b (p6kController_new numAxes port)
                    = if decide (b = 0) then Some (mkAxis 0 0 0 0%float) else None).
  { intros b.
    set (c0 := mkController false (numAxes + 1) (replicate (Z.to_nat (numAxes + 1)) None)
                 0 0 0 false (mkParams ∅ ∅) [] []).
    assert (Hwf0 : wf c0) by (unfold wf, c0; cbn; by rewrite length_replicate).
    assert (Heq : getAxis b (p6kController_new numAxes port) = getAxis b (snd (newAxis 0 c0))).
    { unfold getAxis, p6kController_new. fold c0. unfold_M.
      destruct (is_success (fst port)); reflexivity. }
    rewrite Heq, (newAxis_lookup 0 c0 b); [|cbn; lia|done].
    destruct (decide (b = 0)); [done|].
    destruct (getAxis b c0) as [ax|] eqn:Hax; [|done].
    apply getAxis_in_range in Hax as (_ & Hl). cbn in Hl.
    apply lookup_replicate in Hl as [? _]. done. }
  rewrite H0.
  destruct (decide (a ∈ seqZ 1 numAxes)) as [Hin|Hin]; rewrite elem_of_seqZ in Hin.
  - rewrite decide_True by lia. done.
  - destruct (decide (a = 0)) as [->|Hne].
    + rewrite decide_True by lia. done.
    + rewrite decide_False by lia. done.
Qed.

Lemma createLoop_numAxes l c :
  numAxes_ (foldl (λ c axis, snd (newAxis axis c)) c l) = numAxes_ c.
Proof.
  revert c. induction l as [|x l IH]; intros c; [done|]. cbn [foldl].
  rewrite IH. by destruct (newAxis_fields x c) as (? & _).
Qed.

(** X18.  After the constructor for [numAxes] axes and [p6kCreateAxes] for
    the same count, which returns [asynSuccess], [getAxis] yields an axis
    carrying its own number, with no pending move, at every index from 0 to
    [numAxes], and NULL at every other index; nothing has been sent. *)
Theorem p6kCreateAxes_fills_table (numAxes : Z) (port : asynStatus * bool) (a : Z) :
  0 <= numAxes →
  let r := p6kCreateAxes numAxes (p6kController_new numAxes port) in
  fst r = asynSuccess
  ∧ getAxis a (snd r) =
      (if decide (0 <= a <= numAxes) then Some (mkAxis a 0 0 0%float) else None)
  ∧ numAxes_ (snd r) = numAxes + 1
  ∧ wire (snd r) = [].
Proof.
  intros Hn. cbv zeta. split; [done|]. split; [by apply createAxes_getAxis|].
  unfold p6kCreateAxes. unfold_M. cbn [fst snd]. split.
  - by rewrite createLoop_numAxes, p6kController_new_numAxes.
  - destruct (createLoop_port_wire (seqZ 1 numAxes) (p6kController_new numAxes port))
      as (_ & ->).
    unfold p6kController_new, newAxis. unfold_M. cbn.
    destruct (is_success (fst port)), (0 <? numAxes + 1); reflexivity.
Qed.

Lemma p6kCreateAxes_fills_table_example :
  getAxis 8 eightAxes = Some (mkAxis 8 0 0 0%float) ∧ getAxis 9 eightAxes = None.
Proof.
  unfold eightAxes. split.
  - apply (p6kCreateAxes_fills_table 8 portConnected 8). lia.
  - apply (p6kCreateAxes_fills_table 8 portConnected 9). lia.
Defined.

(** ** The frame of an exchange *)

(** X19.  An exchange writes the controller's comms flag and nothing else in
    the parameter library, and never the axis table, the deferral flag or
    the port; it adds to the error log exactly when the transport was
    contacted and failed. *)
Theorem lowLevelWriteRead_frame (E : framework) (command : string) (c : p6kController) :
  let r := lowLevelWriteRead E command c in
  shape (snd r) = shape c
  ∧ doubleParams (params (snd r)) = doubleParams (params c)
  ∧ (∀ k, k ≠ (0, P6K_C_CommsError_) →
       intParams (params (snd r)) !! k = intParams (params c) !! k)
  ∧ (errlog (snd r) ≠ errlog c ↔
       lowLevelPortUser_ c = true ∧ default 0 (commsFlag c) = 0
       ∧ writeRead E (wire c) command ≠ asynSuccess).
Proof.
  cbv zeta. split; [apply lowLevelWriteRead_shape|].
  split; [apply lowLevelWriteRead_doubles|].
  unfold lowLevelWriteRead, transport, commsFlag. unfold_M. cbn.
  destruct (lowLevelPortUser_ c); cbn.
  - destruct (Z.eqb_spec (default 0 (intParams (params c) !! (0, P6K_C_CommsError_))) 0)
      as [Hf|Hf]; cbn.
    + destruct (is_success (writeRead E (wire c) command)) eqn:Hs; cbn.
      * apply is_success_true in Hs. split.
        -- intros k Hk. by rewrite lookup_insert_ne.
        -- split; [done|]. intros (_ & _ & Hne). done.
      * apply is_success_false in Hs. split.
        -- intros k Hk. by rewrite lookup_insert_ne.
        -- split; [done|]. intros _ Heq.
           apply (f_equal length) in Heq. rewrite length_app in Heq. cbn in Heq. lia.
    + split; [done|]. split; [done|]. intros (_ & ? & _). done.
  - split.
    + intros k Hk. by rewrite lookup_insert_ne.
    + split; [done|]. intros (? & _). done.
Qed.

(** ** The axis lines of [report] *)

Lemma omap_all_some {A B} (f : A → option B) (g : A → B) (l : list A) :
  (∀ x, x ∈ l → f x = Some (g x)) → omap f l = g <$> l.
Proof.
  induction l as [|x l IH]; intros H; [done|]. cbn.
  rewrite (H x) by left. cbn. rewrite IH; [done|]. intros y Hy. apply H. by right.
Qed.

Lemma omap_length_le {A B} (f : A → option B) (l : list A) :
  (length (omap f l) ≤ length l)%nat.
Proof.
  induction l as [|x l IH]; [done|]. cbn. destruct (f x); cbn; lia.
Qed.

(** X20.  [report] prints no axis line at level 0 or below, never more axis
    lines than [numAxes_], and, for a controller built for [numAxes] axes
    whose axes were created by [p6kCreateAxes], one line per axis number
    from 0 to [numAxes] in ascending order. *)
Theorem report_axis_lines (level numAxes : Z) (port : asynStatus * bool)
    (c : p6kController) :
  0 <= numAxes →
  (level <= 0 → reportAxisLines level c = [])
  ∧ (length (reportAxisLines level c) ≤ Z.to_nat (numAxes_ c))%nat
  ∧ (0 < level →
       reportAxisLines level (snd (p6kCreateAxes numAxes (p6kController_new numAxes port)))
       = (λ a, "  axis " +:+ pretty a) <$> seqZ 0 (numAxes + 1)).
Proof.
  intros Hn. unfold reportAxisLines. split; [|split].
  - intros Hl. destruct (Z.ltb_spec 0 level); [lia | done].
  - destruct (0 <? level); [|cbn; lia].
    etrans; [apply omap_length_le|]. by rewrite length_seqZ.
  - intros Hl. destruct (Z.ltb_spec 0 level); [|lia].
    assert (Hnum : numAxes_ (snd (p6kCreateAxes numAxes (p6kController_new numAxes port)))
                   = numAxes + 1).
    { unfold p6kCreateAxes. unfold_M. cbn [fst snd].
      by rewrite createLoop_numAxes, p6kController_new_numAxes. }
    rewrite Hnum. apply omap_all_some. intros a Ha. apply elem_of_seqZ in Ha.
    rewrite (createAxes_getAxis numAxes port a Hn).
    rewrite decide_True by lia. reflexivity.
Qed.

Lemma report_axis_lines_example :
  reportAxisLines 1 (snd (p6kCreateAxes 2 (p6kController_new 2 portConnected)))
  = ["  axis 0"; "  axis 1"; "  axis 2"]
  ∧ reportAxisLines 1 twoAxesBare = ["  axis 0"].
Proof.
  split; [|vm_compute; reflexivity].
  pose proof (report_axis_lines 1 2 portConnected twoAxesBare) as H.
  destruct H as (_ & _ & H); [lia|]. rewrite H by lia. vm_compute. reflexivity.
Defined.
